(** * The smart-fridge server (index.js): a shallow embedding

    The server has three routes.  POST /api/pi-data ingests a report from
    the device, runs the local vision script, evaluates the sensors,
    replaces the fridge snapshot and appends an event.  GET
    /api/fridge-contents lists the snapshot.  GET /api/recipe selects the
    items about to expire and asks a text-generation service for recipes.

    JavaScript values are modelled by a small value type, objects by finite
    maps from property names to values, MongoDB collections by lists of
    documents, and everything the server obtains from outside (the clock,
    the vision process, the database driver's failures, the random sample,
    the text-generation service) by the fields of an environment that the
    handlers take as an argument.  The handlers describe a running server;
    [servePiData] and [serveFridgeContents] add what ends the server
    process: an 'error' event without listener, a rejected promise without
    handler. *)

From Stdlib Require Import ZArith QArith Qround List Ascii String Bool Lia.
From stdpp Require Import base option list gmap.

Local Open Scope Z_scope.

(** ** JavaScript strings

    A JavaScript string is a sequence of UTF-16 code units. *)

Abbreviation jsstring := (list N).

(** The code units of an ASCII literal of the source. *)
Definition js (s : string) : jsstring :=
  map N_of_ascii (list_ascii_of_string s).

(** WhiteSpace and LineTerminator of ECMAScript: what [\s] matches and what
    [String.prototype.trim] removes. *)
Definition isLineTerminator (c : N) : bool :=
  ((c =? 10) || (c =? 13) || (c =? 8232) || (c =? 8233))%N.

Definition isWhiteSpace (c : N) : bool :=
  isLineTerminator c
  || ((c =? 9) || (c =? 11) || (c =? 12) || (c =? 32) || (c =? 160)
      || (c =? 5760) || ((8192 <=? c) && (c <=? 8202))
      || (c =? 8239) || (c =? 8287) || (c =? 12288) || (c =? 65279))%N.

Fixpoint dropWhile {A} (p : A -> bool) (l : list A) : list A :=
  match l with
  | [] => []
  | x :: l' => if p x then dropWhile p l' else l
  end.

Fixpoint takeWhile {A} (p : A -> bool) (l : list A) : list A :=
  match l with
  | [] => []
  | x :: l' => if p x then x :: takeWhile p l' else []
  end.

Definition trimStart (s : jsstring) : jsstring := dropWhile isWhiteSpace s.
Definition trimEnd (s : jsstring) : jsstring := rev (dropWhile isWhiteSpace (rev s)).

(** [s.trim()] *)
Definition trim (s : jsstring) : jsstring := trimEnd (trimStart s).

(** ** JavaScript numbers and values *)

(** A Number: NaN, an infinity, or a finite double, which is a rational. *)
Inductive JsNum : Type :=
| NaN
| NegInf
| PosInf
| Fin (q : Q).

(** [a > b] on Numbers; false as soon as one side is NaN. *)
Definition js_gt (a b : JsNum) : bool :=
  match a, b with
  | NaN, _ | _, NaN => false
  | PosInf, PosInf => false
  | PosInf, _ => true
  | _, PosInf => false
  | NegInf, _ => false
  | Fin _, NegInf => true
  | Fin x, Fin y => negb (Qle_bool x y)
  end.

(** The values that reach the server: what JSON.parse produces (null,
    booleans, numbers, strings, and nested arrays and objects, which the
    server only passes along and which are kept opaque as [VRef]), a missing
    property ([VUndef]), and the Date objects the server creates ([VDate],
    with [None] for an Invalid Date and otherwise the time value in
    milliseconds). *)
Inductive JsVal : Type :=
| VUndef
| VNull
| VBool (b : bool)
| VNum (n : JsNum)
| VStr (s : jsstring)
| VDate (t : option Z)
| VRef (r : N).

(** An object: its own properties. *)
Abbreviation Obj := (gmap jsstring JsVal).

(** [o.k] : a missing property reads as undefined. *)
Definition prop (o : Obj) (k : string) : JsVal :=
  default VUndef (o !! js k).

(** ToBoolean. *)
Definition truthy (v : JsVal) : bool :=
  match v with
  | VUndef | VNull => false
  | VBool b => b
  | VNum NaN => false
  | VNum (Fin q) => negb (Qeq_bool q 0)
  | VNum _ => true
  | VStr s => negb (Nat.eqb (length s) 0)
  | VDate _ | VRef _ => true
  end.

(** [v === 'lit'] for a string literal of the source. *)
Definition strictEqStr (v : JsVal) (lit : string) : bool :=
  match v with
  | VStr s => bool_decide (s = js lit)
  | _ => false
  end.

(** The built-in conversions of the language that the server relies on and
    whose grammar is not part of this program. *)
Record Builtins : Type := {
  (** ToNumber on a string (StringToNumber) *)
  StringToNumber : jsstring -> JsNum;
  (** ToString on a nested array or object *)
  RefToString : N -> jsstring;
  (** ToString on a value that is neither a string nor null nor undefined *)
  ToStringOther : JsVal -> jsstring;
  (** the time value of [new Date(v)] for a truthy [v]; [None] when the
      result is an Invalid Date *)
  newDate : JsVal -> option Z;
  (** the time value of a Date for instant [t] after
      [setDate(getDate() + d)] in the server's time zone; [None] when it
      leaves the range of Date *)
  addDays : Z -> Z -> option Z;
  (** [toISOString()] of a valid Date with the given time value *)
  toISOString : Z -> jsstring
}.

Section Sensor.

Context (B : Builtins).

(** ToNumber, as the relational operators apply it to their operands. *)
Definition ToNumber (v : JsVal) : JsNum :=
  match v with
  | VUndef => NaN
  | VNull => Fin 0
  | VBool b => if b then Fin 1 else Fin 0
  | VNum n => n
  | VStr s => StringToNumber B s
  | VDate None => NaN
  | VDate (Some t) => Fin (inject_Z t)
  | VRef r => StringToNumber B (RefToString B r)
  end.

Record AlertState : Type := {
  is_alert : bool;
  alert_reason : jsstring
}.

Definition reasonAllClear : jsstring := js "Sensor: All clear.".
Definition reasonGas : jsstring := js "Sensor Alert: High gas level detected!".
Definition reasonDoor : jsstring := js "Sensor Alert: Door is open.".

(** [runSensorLogic(data)] *)
Definition runSensorLogic (data : Obj) : AlertState :=
  let gas_level_percent := prop data "gas_level_percent" in
  let door_status := prop data "door_status" in
  let is_alert := false in
  let alert_reason := reasonAllClear in
  if js_gt (ToNumber gas_level_percent) (Fin 50) then
    {| is_alert := true; alert_reason := reasonGas |}
  else if strictEqStr door_status "open" then
    {| is_alert := true; alert_reason := reasonDoor |}
  else
    {| is_alert := is_alert; alert_reason := alert_reason |}.

End Sensor.

(** ** String operations used by the recipe requester *)

Fixpoint isPrefix (p s : jsstring) : bool :=
  match p, s with
  | [], _ => true
  | _ :: _, [] => false
  | a :: p', b :: s' => (a =? b)%N && isPrefix p' s'
  end.

(** [s.split(sep)] for a non-empty separator: [acc] holds the current piece
    in reverse, [skip] the code units of a separator still to pass over. *)
Fixpoint splitGo (sep s acc : jsstring) (skip : nat) : list jsstring :=
  match s with
  | [] => [rev acc]
  | c :: s' =>
      match skip with
      | S k => splitGo sep s' acc k
      | O =>
          if isPrefix sep s
          then rev acc :: splitGo sep s' [] (length sep - 1)
          else splitGo sep s' (c :: acc) 0
      end
  end.

Definition split (sep s : jsstring) : list jsstring := splitGo sep s [] 0.

(** [s.replace(pat, '')] for a string pattern: the first occurrence goes. *)
Fixpoint removeFirst (pat s : jsstring) : jsstring :=
  match s with
  | [] => []
  | c :: s' => if isPrefix pat s then drop (length pat) s else c :: removeFirst pat s'
  end.

(** Canonicalize of a case-insensitive, non-unicode regular expression: a
    code unit from 128 on never becomes an ASCII one, so on the ASCII labels
    below only the two cases of a letter agree. *)
Definition canonicalize (c : N) : N :=
  if ((97 <=? c) && (c <=? 122))%N then (c - 32)%N else c.

Fixpoint isPrefixCI (p s : jsstring) : bool :=
  match p, s with
  | [], _ => true
  | _ :: _, [] => false
  | a :: p', b :: s' => (canonicalize a =? canonicalize b)%N && isPrefixCI p' s'
  end.

(** The capture group of the case-insensitive expression made of a label,
    any amount of white space and a group of any code units but line
    terminators, on [s], if the expression matches: the leftmost occurrence
    of the label, then all the white space that follows (line terminators
    are white space), then the code units up to the next line terminator. *)
Fixpoint matchLabel (label s : jsstring) : option jsstring :=
  match s with
  | [] => None
  | _ :: s' =>
      if isPrefixCI label s
      then Some (takeWhile (fun c => negb (isLineTerminator c))
                   (dropWhile isWhiteSpace (drop (length label) s)))
      else matchLabel label s'
  end.

Definition titleRegex (block : jsstring) : option jsstring := matchLabel (js "Title:") block.
Definition descRegex (block : jsstring) : option jsstring := matchLabel (js "Description:") block.

Definition isDigit (c : N) : bool := ((48 <=? c) && (c <=? 57))%N.

(** The first line without a leading enumeration marker: one digit, a dot
    and the white space after them. *)
Definition stripEnumeration (line : jsstring) : jsstring :=
  match line with
  | d :: dot :: rest =>
      if isDigit d && (dot =? 46)%N then dropWhile isWhiteSpace rest else line
  | _ => line
  end.

Record Recipe : Type := {
  title : jsstring;
  description : jsstring
}.

(** The body of the loop over [recipeBlocks]: the recipes one block adds. *)
Definition parseBlock (block : jsstring) : list Recipe :=
  match titleRegex block, descRegex block with
  | Some t, Some d => [ {| title := trim t; description := trim d |} ]
  | _, _ =>
      if (10 <? length (trim block))%nat then
        match split [10%N] (trim block) with
        | l0 :: l1 :: _ =>
            [ {| title := trim (stripEnumeration l0); description := trim l1 |} ]
        | _ => []
        end
      else []
  end.

Definition parsedRecipes (generatedText : jsstring) : list Recipe :=
  concat (map parseBlock (split (js "---") generatedText)).

(** Lines the server writes to the console, one constructor per call site
    that the properties below mention; the informational ones carry no
    payload. *)
Inductive LogLine : Type :=
| LogInfo (what : string)
| LogWarn (what : string)
| LogError (what : string) (message : jsstring).

(** What [await hf.textGeneration(...)] followed by the read of
    [generated_text] does: it throws an error with a message, or yields
    the generated text. *)
Inductive HfOutcome : Type :=
| HfThrows (message : jsstring)
| HfReturns (generated_text : jsstring).

Definition parsingFailedRecipe (generatedText : jsstring) : Recipe :=
  {| title := js "Generated Recipes (Parsing Failed)"; description := generatedText |}.

Definition generationFailedRecipe : Recipe :=
  {| title := js "Recipe Generation Failed";
     description := js "Could not generate recipe. Check server logs." |}.

Section RecipeRequester.

Context (B : Builtins).

(** The text of one element in [objects.join(', ')]. *)
Definition joinText (v : JsVal) : jsstring :=
  match v with
  | VUndef | VNull => []
  | VStr s => s
  | _ => ToStringOther B v
  end.

Fixpoint join (sep : jsstring) (l : list jsstring) : jsstring :=
  match l with
  | [] => []
  | [x] => x
  | x :: l' => x ++ sep ++ join sep l'
  end.

Definition prompt (objects : list JsVal) : jsstring :=
  js "Create a list of 3 simple recipe ideas using: "
  ++ join (js ", ") (map joinText objects)
  ++ js ". Prioritize using these items first. For each recipe, provide a title and a one-sentence description. Format each as: "
  ++ [34%N] ++ js "Title: [Recipe Title]" ++ [10%N]
  ++ js "Description: [Recipe Description]" ++ [34%N]
  ++ js " and separate each entry with " ++ [34%N] ++ js "---" ++ [34%N] ++ js ".".

(** The outcome of one call of the requester: the recipes, whether the
    text-generation service was called, and the console lines. *)
Record RecipeRun : Type := {
  recipes : list Recipe;
  hf_called : bool;
  recipe_console : list LogLine
}.

(** [generatedText]: the response without the echoed prompt, trimmed. *)
Definition generatedTextOf (objects : list JsVal) (generated_text : jsstring) : jsstring :=
  trim (removeFirst (prompt objects) generated_text).

(** [getRecipeFromHF(objects)] with the service answering [hf]. *)
Definition getRecipeFromHF (hf : HfOutcome) (objects : list JsVal) : RecipeRun :=
  match objects with
  | [] => {| recipes := []; hf_called := false; recipe_console := [] |}
  | _ :: _ =>
      match hf with
      | HfReturns generated_text =>
          let generatedText := generatedTextOf objects generated_text in
          let parsed := parsedRecipes generatedText in
          {| recipes :=
               if Nat.eqb (length parsed) 0 && (0 <? length generatedText)%nat
               then [parsingFailedRecipe generatedText]
               else parsed;
             hf_called := true;
             recipe_console := [LogInfo "Calling HF Text Generation (for Recipe)..."] |}
      | HfThrows message =>
          {| recipes := [generationFailedRecipe];
             hf_called := true;
             recipe_console :=
               [LogInfo "Calling HF Text Generation (for Recipe)...";
                LogError "HF Text Generation Error: " message] |}
      end
  end.

End RecipeRequester.

(** ** The document store and the outside world *)

(** [ml_result] of an ingest cycle. *)
Record MLResult : Type := {
  detected_items : list Obj;
  ml_is_alert : bool;
  ml_alert_reason : jsstring
}.

(** A document of the events collection: the report as received (with the
    server's timestamp) and the derived result. *)
Record EventDoc : Type := {
  ev_data : Obj;
  ev_ml_result : MLResult
}.

(** What the server can change: the two collections, the log file, the
    console, the driver's supply of fresh identifiers, and whether the
    server process is still running ([serving]): an exception nobody
    catches and a rejected promise nobody handles end the process. *)
Record World : Type := {
  fridge_items : list Obj;
  events : list EventDoc;
  log_file : list Obj;
  console : list LogLine;
  next_id : N;
  serving : bool
}.

Definition say (l : LogLine) (w : World) : World :=
  {| fridge_items := fridge_items w; events := events w; log_file := log_file w;
     console := console w ++ [l]; next_id := next_id w; serving := serving w |}.

Definition setFridge (items : list Obj) (n : N) (w : World) : World :=
  {| fridge_items := items; events := events w; log_file := log_file w;
     console := console w; next_id := n; serving := serving w |}.

Definition addEvent (e : EventDoc) (w : World) : World :=
  {| fridge_items := fridge_items w; events := events w ++ [e]; log_file := log_file w;
     console := console w; next_id := next_id w; serving := serving w |}.

Definition addLogLine (o : Obj) (w : World) : World :=
  {| fridge_items := fridge_items w; events := events w; log_file := log_file w ++ [o];
     console := console w; next_id := next_id w; serving := serving w |}.

(** The server process exits. *)
Definition stop (w : World) : World :=
  {| fridge_items := fridge_items w; events := events w; log_file := log_file w;
     console := console w; next_id := next_id w; serving := false |}.

(** What the vision script wrote, once parsed: [None] stands for an output
    that JSON.parse rejects or that has no properties to read (null). The
    script's contract makes [detected_items], when present and truthy, an
    array of objects. *)
Record VisionOutput : Type := {
  vo_error : JsVal;
  vo_detected_items : option (list Obj)
}.

(** One run of the vision process in which neither the child nor its stdin
    emits an 'error' event: whether the write to its stdin threw, and how
    the process closed.  A run with such an event is a [child_error] of the
    [ProcessEnv] below. *)
Record VisionRun : Type := {
  stdin_error : option jsstring;
  exit_code : Z;
  scriptError : jsstring;
  scriptOutput : option VisionOutput
}.

(** How the third insert of an ingest cycle ends: it is not awaited, and its
    rejection has no handler, so that a rejected insert ends the server
    process (the runtime's default for an unhandled rejection) once the
    response has been sent. *)
Inductive InsertOneOutcome : Type :=
| InsertOneOk
| InsertOneThrows (message : jsstring)
| InsertOneRejects.

(** The outside world during one ingest request. A failing [deleteMany] is
    taken to have removed nothing; a failing [insertMany] has written the
    first [k] documents. *)
Record IngestEnv : Type := {
  clock : Z;
  vision_run : VisionRun;
  appendFile_fails : bool;
  deleteMany_error : option jsstring;
  insertMany_error : option (nat * jsstring);
  insertOne_outcome : InsertOneOutcome
}.

(** The outside world of the server process during one ingest request:
    that of the route, and the 'error' event, if any, that the child
    process or its stdin emits (the process could not be spawned, or the
    script closed its stdin and the write fails later with EPIPE).  The
    source attaches no listener for it. *)
Record ProcessEnv : Type := {
  ingest_env : IngestEnv;
  child_error : option jsstring
}.

(** The JSON bodies the routes send. The [details] of a failed ingest (the
    stack of the error) are left out. *)
Inductive Body : Type :=
| BodyError (message : jsstring)
| BodyIngested (received_event : JsVal) (ml_result : MLResult)
| BodyContents (count : nat) (items : list Obj)
| BodyRecipe (recipe_for : list JsVal) (recipe : list Recipe).

Record Response : Type := {
  status : Z;
  body : Body
}.

(** The driver gives a document without [_id] a fresh one. *)
Fixpoint assignIds (next : N) (docs : list Obj) : list Obj * N :=
  match docs with
  | [] => ([], next)
  | d :: ds =>
      match d !! js "_id" with
      | Some _ => let r := assignIds next ds in (d :: r.1, r.2)
      | None => let r := assignIds (N.succ next) ds in
                (<[js "_id" := VRef next]> d :: r.1, r.2)
      end
  end.

(** [find({ expiration_date: { $gte: start, $lte: end } })]: a range on
    dates selects the documents whose field is a date in the range; null
    and values of other types are not compared with dates. *)
Definition expiresWithin (start_ end_ : Z) (doc : Obj) : bool :=
  match doc !! js "expiration_date" with
  | Some (VDate (Some d)) => (start_ <=? d) && (d <=? end_)
  | _ => false
  end.

Definition queryExpiringBetween (start_ end_ : Z) (coll : list Obj) : list Obj :=
  List.filter (expiresWithin start_ end_) coll.

Section Server.

Context (B : Builtins).

(** [invokeLocalVision(data)]: how the promise is settled, by the first of
    [reject] and [resolve] that runs, in a run without 'error' event.  An
    'error' event is not a settlement: it is dealt with by [servePiData]. *)
Definition invokeLocalVision (run : VisionRun) : jsstring + VisionOutput :=
  match stdin_error run with
  | Some m => inl (js "Failed to write to python process: " ++ m)
  | None =>
      if negb (exit_code run =? 0) then
        inl (js "Python script failed: " ++ scriptError run)
      else
        match scriptOutput run with
        | None => inl (js "Failed to parse Python output.")
        | Some result =>
            if truthy (vo_error result)
            then inl (joinText B (vo_error result))
            else inr result
        end
  end.

(** The expiration_date of the element [itemsToInsert] holds for a detected
    item, as the driver writes it: null for a falsy value, and otherwise
    the Date made from the value, where an Invalid Date, which only ever
    goes to insertMany, is written by the driver's serializer as the date
    with time value 0. *)
Definition storedExpiration (item : Obj) : JsVal :=
  if truthy (prop item "expiration_date")
  then VDate (Some (default 0 (newDate B (prop item "expiration_date"))))
  else VNull.

Definition toFridgeItem (server_timestamp : Z) (item : Obj) : Obj :=
  <[js "last_seen" := VDate (Some server_timestamp)]>
    (<[js "expiration_date" := storedExpiration item]> item).

(** Step 7 of the ingest route: the fridge snapshot is replaced. *)
Definition updateFridge (env : IngestEnv) (server_timestamp : Z)
    (detected : list Obj) (w : World) : World :=
  match deleteMany_error env with
  | Some m => say (LogError "Failed to update fridge_items collection:" m) w
  | None =>
      let w1 := setFridge [] (next_id w) w in
      if (0 <? length detected)%nat then
        let itemsToInsert := map (toFridgeItem server_timestamp) detected in
        let r := assignIds (next_id w) itemsToInsert in
        match insertMany_error env with
        | Some (k, m) =>
            say (LogError "Failed to update fridge_items collection:" m)
                (setFridge (take k r.1) r.2 w1)
        | None =>
            say (LogInfo "Updated fridge_items collection") (setFridge r.1 r.2 w1)
        end
      else say (LogInfo "No items detected, fridge_items collection is now empty.") w1
  end.

(** Step 8: the event is handed to the events collection. *)
Definition saveEvent (env : IngestEnv) (e : EventDoc) (w : World) : World :=
  match insertOne_outcome env with
  | InsertOneOk => say (LogInfo "New event saved to events collection.") (addEvent e w)
  | InsertOneThrows m => say (LogError "Event log insert operation error:" m) w
  | InsertOneRejects => stop w
  end.

(** Step 3: a line for the log file, not awaited. *)
Definition appendLog (env : IngestEnv) (data : Obj) (w : World) : World :=
  if appendFile_fails env
  then say (LogError "Failed to write to log file:" []) w
  else addLogLine ({[ js "event" := prop data "event";
                      js "timestamp" := prop data "server_timestamp" ]}) w.

(** POST /api/pi-data, as a running server handles it when the child
    process emits no 'error' event. [None] is a request without a body. *)
Definition handlePiData (env : IngestEnv) (reqbody : option Obj) (w : World)
    : Response * World :=
  let noImage :=
    ({| status := 400; body := BodyError (js "No image_base64 data received") |},
     say (LogWarn "Received request with no image data.") w) in
  match reqbody with
  | None => noImage
  | Some data0 =>
      if negb (truthy (prop data0 "image_base64")) then noImage
      else
        let server_timestamp := clock env in
        let data := <[js "server_timestamp" := VStr (toISOString B server_timestamp)]> data0 in
        let w := say (LogInfo "--- Data Received ---") w in
        let w := appendLog env data w in
        match invokeLocalVision (vision_run env) with
        | inl message =>
            ({| status := 500; body := BodyError message |},
             say (LogError "[ERROR] Failed to process request: " message) w)
        | inr visionResult =>
            let w := say (LogInfo "Local Vision Result:") w in
            let sensorResult := runSensorLogic B data in
            let finalMLResult :=
              {| detected_items := default [] (vo_detected_items visionResult);
                 ml_is_alert := is_alert sensorResult;
                 ml_alert_reason := alert_reason sensorResult |} in
            let w := say (LogInfo "--- Combined ML Result ---") w in
            let w := updateFridge env server_timestamp (detected_items finalMLResult) w in
            let w := saveEvent env {| ev_data := data; ev_ml_result := finalMLResult |} w in
            ({| status := 200;
                body := BodyIngested (prop data "event") finalMLResult |}, w)
        end
  end.


(** Whether the route spawns the vision process for a request. *)
Definition spawnsVision (reqbody : option Obj) : bool :=
  match reqbody with
  | Some data => truthy (prop data "image_base64")
  | None => false
  end.

(** The world when the vision process is spawned: the request was logged
    to the console and the line for the log file was handed over. *)
Definition beforeVision (env : IngestEnv) (data : Obj) (w : World) : World :=
  appendLog env
    (<[js "server_timestamp" := VStr (toISOString B (clock env))]> data)
    (say (LogInfo "--- Data Received ---") w).

(** POST /api/pi-data at the level of the server process: the response, if
    one is sent.  A process that has exited answers nothing.  When the
    vision process is spawned and it or its stdin emits 'error', the event
    has no listener: it is an uncaught exception, the process exits and the
    request is never answered.  Otherwise the route runs as in
    [handlePiData]. *)
Definition servePiData (penv : ProcessEnv) (reqbody : option Obj) (w : World)
    : option Response * World :=
  if serving w then
    match reqbody, child_error penv with
    | Some data, Some _ =>
        if truthy (prop data "image_base64")
        then (None, stop (beforeVision (ingest_env penv) data w))
        else (Some (handlePiData (ingest_env penv) reqbody w).1,
              (handlePiData (ingest_env penv) reqbody w).2)
    | _, _ =>
        (Some (handlePiData (ingest_env penv) reqbody w).1,
         (handlePiData (ingest_env penv) reqbody w).2)
    end
  else (None, w).


End Server.

(** ** The recipe route *)

Definition digitsValue (ds : list N) : Z :=
  fold_left (fun acc d => acc * 10 + (Z.of_N d - 48)) ds 0.

(** [parseInt(s, 10)]: leading white space, an optional sign, then the
    longest run of decimal digits; [None] is NaN. The integer is kept exact
    (the language rounds it to a double from 2^53 on). *)
Definition parseInt10 (s : jsstring) : option Z :=
  let s1 := dropWhile isWhiteSpace s in
  let signed :=
    match s1 with
    | 45%N :: r => (-1, r)
    | 43%N :: r => (1, r)
    | _ => (1, s1)
    end in
  match takeWhile isDigit signed.2 with
  | [] => None
  | ds => Some (signed.1 * digitsValue ds)
  end.

(** The outside world during one recipe request: the clock (the two Dates
    the handler creates are taken at the same instant), the outcome of the
    two reads, the documents [$sample] picks, and the service's answer. *)
Record RecipeEnv : Type := {
  today : Z;
  find_error : option jsstring;
  aggregate_error : option jsstring;
  sample : nat -> list Obj -> list Obj;
  hf_outcome : HfOutcome
}.

(** [$sample] of size [n] yields [n] documents of the collection, or all of
    them when there are fewer. *)
Definition sample_ok (pick : nat -> list Obj -> list Obj) : Prop :=
  forall n coll,
    length (pick n coll) = Nat.min n (length coll)
    /\ (forall d, In d (pick n coll) -> In d coll).

(** What one recipe request did. *)
Record RecipeOutcome : Type := {
  ro_response : Response;
  ro_queried : bool;
  ro_sampled : bool;
  ro_hf_called : bool;
  ro_console : list LogLine
}.

Section RecipeRoute.

Context (B : Builtins).

(** The handler's catch block. *)
Definition recipeFailed (queried sampled : bool) (pre : list LogLine) (m : jsstring)
    : RecipeOutcome :=
  {| ro_response :=
       {| status := 500; body := BodyError (js "Failed to generate recipe.") |};
     ro_queried := queried; ro_sampled := sampled; ro_hf_called := false;
     ro_console := pre ++ [LogError "Failed to generate recipe:" m] |}.

(** [req.query.days ? parseInt(req.query.days, 10) : 3]; [None] is NaN. *)
Definition days_to_expire (days : option jsstring) : option Z :=
  match days with
  | Some s => if truthy (VStr s) then parseInt10 s else Some 3
  | None => Some 3
  end.

(** The time value of [expiry_limit]; [None] is an Invalid Date. *)
Definition expiry_limit (env : RecipeEnv) (days : option jsstring) : option Z :=
  match days_to_expire days with
  | None => None
  | Some d => addDays B (today env) d
  end.

Definition nameOf (item : Obj) : JsVal := prop item "name".

(** GET /api/recipe with query parameter [days]. *)
Definition handleRecipe (env : RecipeEnv) (days : option jsstring) (w : World)
    : RecipeOutcome :=
  match expiry_limit env days with
  | None =>
      (* toISOString of an Invalid Date throws a RangeError *)
      recipeFailed false false [] (js "Invalid time value")
  | Some limit =>
      let c0 := [LogInfo "Getting recipe for items expiring between"] in
      match find_error env with
      | Some m => recipeFailed true false c0 m
      | None =>
          let expiringItems := queryExpiringBetween (today env) limit (fridge_items w) in
          let itemsList := map nameOf expiringItems in
          let fallback := Nat.eqb (length itemsList) 0 in
          let c1 := if fallback
                    then c0 ++ [LogInfo "No expiring items, grabbing random items..."]
                    else c0 in
          match (if fallback then aggregate_error env else None) with
          | Some m => recipeFailed true true c1 m
          | None =>
              let itemsList :=
                if fallback then map nameOf (sample env 3%nat (fridge_items w))
                else itemsList in
              if Nat.eqb (length itemsList) 0 then
                {| ro_response :=
                     {| status := 404;
                        body := BodyError (js "No items found in fridge to make a recipe.") |};
                   ro_queried := true; ro_sampled := fallback; ro_hf_called := false;
                   ro_console := c1 |}
              else
                let recipe := getRecipeFromHF B (hf_outcome env) itemsList in
                {| ro_response :=
                     {| status := 200; body := BodyRecipe itemsList (recipes recipe) |};
                   ro_queried := true; ro_sampled := fallback;
                   ro_hf_called := hf_called recipe;
                   ro_console := c1 ++ recipe_console recipe |}
          end
      end
  end.

End RecipeRoute.

(** ** Notions the properties are stated with *)







(** A request without an image: no body, or a falsy [image_base64]. *)
Definition missingImage (reqbody : option Obj) : Prop :=
  match reqbody with
  | None => True
  | Some data => truthy (prop data "image_base64") = false
  end.

(** The three ways a vision run fails after its input was written. *)
Definition visionFails (run : VisionRun) : Prop :=
  exit_code run <> 0
  \/ scriptOutput run = None
  \/ exists out, scriptOutput run = Some out /\ truthy (vo_error out) = true.


Definition isErrorLine (l : LogLine) : bool :=
  match l with
  | LogError _ _ => true
  | _ => false
  end.




(** ** Concrete inputs *)

(** Built-ins for the examples: no string is a number, no value makes a
    valid Date, a day lasts 86400000 ms, and the renderings are empty.  The
    examples do not depend on these answers. *)
Definition plainBuiltins : Builtins :=
  {| StringToNumber := fun _ => NaN;
     RefToString := fun _ => [];
     ToStringOther := fun _ => [];
     newDate := fun _ => None;
     addDays := fun t d => Some (t + d * 86400000);
     toISOString := fun _ => [] |}.


Definition hotOpen : Obj :=
  {[ js "gas_level_percent" := VNum (Fin 80); js "door_status" := VStr (js "open") ]}.


(** Detected items and stored documents. *)
Definition milk : Obj := {[ js "name" := VStr (js "milk") ]}.

Definition yoghurt : Obj :=
  {[ js "name" := VStr (js "yoghurt"); js "expiration_date" := VDate (Some 1000) ]}.

Definition butter : Obj :=
  {[ js "name" := VStr (js "butter"); js "expiration_date" := VNull ]}.

Definition cheese : Obj :=
  {[ js "name" := VStr (js "cheese"); js "expiration_date" := VDate (Some 5000) ]}.

(** Worlds. *)
Definition emptyWorld : World :=
  {| fridge_items := []; events := []; log_file := []; console := []; next_id := 0;
     serving := true |}.

Definition stockedWorld : World :=
  {| fridge_items := [butter; cheese]; events := []; log_file := []; console := [];
     next_id := 7; serving := true |}.

Definition unlabelledWorld : World :=
  {| fridge_items := [butter]; events := []; log_file := []; console := [];
     next_id := 1; serving := true |}.

(** Reports of the device. *)
Definition report : Obj :=
  {[ js "image_base64" := VStr (js "aGVsbG8=");
     js "event" := VStr (js "door_closed");
     js "gas_level_percent" := VNum (Fin 80);
     js "door_status" := VStr (js "closed") ]}.

Definition noImageReport : Obj := {[ js "event" := VStr (js "door_closed") ]}.

(** Vision runs: one that detects [items], one that exits with code 1. *)
Definition visionSees (items : list Obj) : VisionRun :=
  {| stdin_error := None; exit_code := 0; scriptError := [];
     scriptOutput := Some {| vo_error := VUndef; vo_detected_items := Some items |} |}.

Definition crashedRun : VisionRun :=
  {| stdin_error := None; exit_code := 1; scriptError := js "Traceback";
     scriptOutput := None |}.

(** Environments of an ingest request: every write succeeds; every write
    fails; only the events insert fails, by a rejected promise or by a
    throw; only the write of the log file fails. *)
Definition quietEnv (run : VisionRun) : IngestEnv :=
  {| clock := 1700000000000; vision_run := run; appendFile_fails := false;
     deleteMany_error := None; insertMany_error := None;
     insertOne_outcome := InsertOneOk |}.

Definition failingDbEnv : IngestEnv :=
  {| clock := 1700000000000; vision_run := visionSees [milk; yoghurt];
     appendFile_fails := true;
     deleteMany_error := Some (js "connection closed");
     insertMany_error := Some (0%nat, js "connection closed");
     insertOne_outcome := InsertOneRejects |}.

Definition rejectingEnv : IngestEnv :=
  {| clock := 1700000000000; vision_run := visionSees [milk; yoghurt];
     appendFile_fails := false; deleteMany_error := None; insertMany_error := None;
     insertOne_outcome := InsertOneRejects |}.

Definition throwingEnv : IngestEnv :=
  {| clock := 1700000000000; vision_run := visionSees [milk; yoghurt];
     appendFile_fails := false; deleteMany_error := None; insertMany_error := None;
     insertOne_outcome := InsertOneThrows (js "not connected") |}.

Definition logFileFailsEnv : IngestEnv :=
  {| clock := 1700000000000; vision_run := visionSees [milk; yoghurt];
     appendFile_fails := true; deleteMany_error := None; insertMany_error := None;
     insertOne_outcome := InsertOneOk |}.

(** Environment of a recipe request: the reads succeed and the sample is
    the first documents of the collection. *)
Definition takeFirst (n : nat) (coll : list Obj) : list Obj := take n coll.

Definition recipeEnv (now : Z) (hf : HfOutcome) : RecipeEnv :=
  {| today := now; find_error := None; aggregate_error := None;
     sample := takeFirst; hf_outcome := hf |}.

(** A generated text of two labelled blocks. *)
Definition twoBlocks : jsstring :=
  js "Title: Omelette" ++ [10%N] ++ js "Description: Whisk and fry.  " ++ [10%N]
  ++ js "---" ++ [10%N] ++ js "TITLE:   Toast" ++ [10%N]
  ++ js "description: Grill the bread.".


(** The code units of a line: all but the line feed that [split] looks
    for in the two-line fallback. *)
Definition notLineFeed (c : N) : bool := negb (10 =? c)%N.


(** Built-ins that agree with the language where the examples need them:
    the empty string converts to 0 and a string of decimal digits to the
    number it writes (other strings are not used as numbers in the
    examples), and the Date
    made from a finite number has that number, truncated, as time value
    when it lies within 8.64e15 ms of the epoch; the examples make a Date
    from a string only for a text that is no date. *)
Definition decimalBuiltins : Builtins :=
  {| StringToNumber := fun s =>
       match s with
       | [] => Fin 0
       | _ => if forallb isDigit s then Fin (inject_Z (digitsValue s)) else NaN
       end;
     RefToString := fun _ => [];
     ToStringOther := fun _ => [];
     newDate := fun v =>
       match v with
       | VNum (Fin q) =>
           let t := if Qle_bool 0 q then Qfloor q else Qceiling q in
           if (Z.abs t <=? 8640000000000000) then Some t else None
       | _ => None
       end;
     addDays := fun t d => Some (t + d * 86400000);
     toISOString := fun _ => [] |}.

(** Detected items as the vision script's JSON carries them: a date given
    as a number of milliseconds, and a text that is no date. *)
Definition yoghurtSeen : Obj :=
  {[ js "name" := VStr (js "yoghurt"); js "expiration_date" := VNum (Fin 5000) ]}.

Definition mysterySeen : Obj :=
  {[ js "name" := VStr (js "mystery"); js "expiration_date" := VStr (js "soon") ]}.



(** A vision run whose write to stdin throws at once. *)
Definition stdinThrowsRun : VisionRun :=
  {| stdin_error := Some (js "write after end"); exit_code := 1; scriptError := [];
     scriptOutput := None |}.

(** The script exits with code 1 without reading its input, and the write
    to its stdin fails with an 'error' event. *)
Definition brokenPipeEnv : ProcessEnv :=
  {| ingest_env := quietEnv crashedRun; child_error := Some (js "write EPIPE") |}.

(** * Properties *)

(** ** The sensor evaluator *)




Lemma prop_missing (o : Obj) (k : string) : o !! js k = None -> prop o k = VUndef.
Proof. unfold prop. intros ->. reflexivity. Qed.




(** ** The expiring-items query *)

Lemma filter_sublist {A} (f : A -> bool) (l : list A) : sublist (List.filter f l) l.
Proof.
  induction l as [|x l IH]; simpl.
  - constructor.
  - destruct (f x); [apply sublist_skip | apply sublist_cons]; exact IH.
Qed.

Lemma expiresWithin_spec (start_ end_ : Z) (doc : Obj) :
  expiresWithin start_ end_ doc = true <->
  exists d, doc !! js "expiration_date" = Some (VDate (Some d)) /\ start_ <= d <= end_.
Proof.
  unfold expiresWithin. split.
  - destruct (doc !! js "expiration_date") as [[| | | | |[d|]|]|]; try discriminate.
    intros H. apply andb_true_iff in H as [H1 H2].
    exists d. split; [reflexivity | lia].
  - intros (d & -> & H1 & H2). apply andb_true_iff. split; lia.
Qed.

(** C2: for every collection and every window, the expiring-items query
    returns exactly the stored items whose expiration_date is a date d with
    start <= d <= end, both ends included, in the order of the store and
    without inventing or repeating any; an item whose expiration_date is
    null is never returned, and the ingest route stores an item that has no
    expiration_date with a null one. *)
Theorem queryExpiringBetween_exact (start_ end_ : Z) (coll : list Obj) :
  (forall doc,
     In doc (queryExpiringBetween start_ end_ coll) <->
     In doc coll
     /\ exists d, doc !! js "expiration_date" = Some (VDate (Some d))
                  /\ start_ <= d <= end_)
  /\ sublist (queryExpiringBetween start_ end_ coll) coll
  /\ (forall doc, doc !! js "expiration_date" = Some VNull ->
        ~ In doc (queryExpiringBetween start_ end_ coll))
  /\ (forall B ts item, item !! js "expiration_date" = None ->
        toFridgeItem B ts item !! js "expiration_date" = Some VNull).
Proof.
  split; [|split; [|split]].
  - intros doc. unfold queryExpiringBetween.
    rewrite filter_In, expiresWithin_spec. reflexivity.
  - apply filter_sublist.
  - intros doc Hnull Hin. unfold queryExpiringBetween in Hin.
    apply filter_In in Hin as [_ Hin]. apply expiresWithin_spec in Hin as (d & Hd & _).
    congruence.
  - intros B ts item Hnone. unfold toFridgeItem, storedExpiration.
    rewrite (prop_missing _ _ Hnone). simpl.
    rewrite lookup_insert_ne by (vm_compute; discriminate).
    apply lookup_insert_eq.
Qed.

Example queryExpiringBetween_endpoints :
  queryExpiringBetween 1000 5000 [yoghurt; butter; cheese] = [yoghurt; cheese]
  /\ queryExpiringBetween 1001 4999 [yoghurt; butter; cheese] = [].
Proof. split; vm_compute; reflexivity. Qed.

Lemma queryExpiringBetween_exact_witness :
  ~ In butter (queryExpiringBetween 0 9000 [yoghurt; butter; cheese]).
Proof.
  apply (proj1 (proj2 (proj2 (queryExpiringBetween_exact 0 9000 [yoghurt; butter; cheese])))).
  vm_compute. reflexivity.
Defined.

(** ** The ingest route *)


Lemma fridge_appendLog (env : IngestEnv) (data : Obj) (w : World) :
  fridge_items (appendLog env data w) = fridge_items w
  /\ events (appendLog env data w) = events w
  /\ next_id (appendLog env data w) = next_id w.
Proof. unfold appendLog. destruct (appendFile_fails env); auto. Qed.











Example stored_expiration_dates :
  toFridgeItem decimalBuiltins 1700000000000 milk !! js "expiration_date" = Some VNull
  /\ toFridgeItem decimalBuiltins 1700000000000 yoghurtSeen !! js "expiration_date"
     = Some (VDate (Some 5000))
  /\ toFridgeItem decimalBuiltins 1700000000000 mysterySeen !! js "expiration_date"
     = Some (VDate (Some 0)).
Proof. repeat split. Qed.




Lemma invokeLocalVision_fails (B : Builtins) (run : VisionRun) :
  visionFails run -> exists m, invokeLocalVision B run = inl m.
Proof.
  unfold invokeLocalVision. intros Hf.
  destruct (stdin_error run) as [m|]; [eauto|].
  destruct (exit_code run =? 0) eqn:Hc; simpl; [|eauto].
  apply Z.eqb_eq in Hc.
  destruct Hf as [Hf | [Hf | (out & Hf & Herr)]].
  - contradiction.
  - rewrite Hf. eauto.
  - rewrite Hf, Herr. eauto.
Qed.

(** An ingest request that fails before vision completes, in a run of the
    vision process without 'error' event, writes neither collection.
    Without an image the response has status 400 and the fridge items, the
    events and the log file are as before.  With an image and a failing
    vision run (non-zero exit, unparseable output, or an error field) the
    response has status 500 with the failure's message, and the fridge
    items and the events are as before. *)
Lemma ingest_failure_writes_nothing (B : Builtins) (env : IngestEnv)
    (reqbody : option Obj) (w : World) :
  (missingImage reqbody ->
     status (handlePiData B env reqbody w).1 = 400
     /\ fridge_items (handlePiData B env reqbody w).2 = fridge_items w
     /\ events (handlePiData B env reqbody w).2 = events w
     /\ log_file (handlePiData B env reqbody w).2 = log_file w)
  /\ (forall data,
        reqbody = Some data ->
        truthy (prop data "image_base64") = true ->
        visionFails (vision_run env) ->
        exists m,
          invokeLocalVision B (vision_run env) = inl m
          /\ (handlePiData B env reqbody w).1 = {| status := 500; body := BodyError m |}
          /\ fridge_items (handlePiData B env reqbody w).2 = fridge_items w
          /\ events (handlePiData B env reqbody w).2 = events w).
Proof.
  split.
  - destruct reqbody as [data|]; simpl.
    + intros ->. simpl. auto.
    + auto.
  - intros data -> Himg Hf.
    destruct (invokeLocalVision_fails B _ Hf) as (m & Hm).
    exists m. split; [exact Hm|].
    unfold handlePiData. rewrite Himg, Hm. simpl.
    destruct (fridge_appendLog env
                (<[js "server_timestamp" := VStr (toISOString B (clock env))]> data)
                (say (LogInfo "--- Data Received ---") w)) as (-> & -> & _).
    auto.
Qed.

Lemma ingest_failure_writes_nothing_witness :
  (status (handlePiData plainBuiltins (quietEnv crashedRun) (Some noImageReport)
             stockedWorld).1 = 400
   /\ fridge_items (handlePiData plainBuiltins (quietEnv crashedRun) (Some noImageReport)
                      stockedWorld).2 = [butter; cheese])
  /\ exists m,
       (handlePiData plainBuiltins (quietEnv crashedRun) (Some report) stockedWorld).1
       = {| status := 500; body := BodyError m |}
       /\ fridge_items (handlePiData plainBuiltins (quietEnv crashedRun) (Some report)
                          stockedWorld).2 = [butter; cheese]
       /\ events (handlePiData plainBuiltins (quietEnv crashedRun) (Some report)
                    stockedWorld).2 = [].
Proof.
  split.
  - destruct (proj1 (ingest_failure_writes_nothing plainBuiltins (quietEnv crashedRun)
                       (Some noImageReport) stockedWorld)) as (H1 & H2 & _).
    + vm_compute. reflexivity.
    + split; [exact H1 | exact H2].
  - destruct (proj2 (ingest_failure_writes_nothing plainBuiltins (quietEnv crashedRun)
                       (Some report) stockedWorld) report) as (m & _ & H1 & H2 & H3).
    + reflexivity.
    + vm_compute. reflexivity.
    + left. vm_compute. discriminate.
    + exists m. split; [exact H1 | split; [exact H2 | exact H3]].
Defined.

(** C4, at a failing input: the script exits with a non-zero code without
    reading its input, and the write to its stdin fails later, with an
    'error' event (EPIPE) that has no listener.  The request is never
    answered and the server process exits; the fridge items and the events
    are as before.  The same run without the event is answered with status
    500 and the script's diagnostic text, and so is a write that throws at
    once, which the route catches; a request without image is answered
    with status 400 whatever the vision process would do. *)
Theorem ingest_error_event_unanswered :
  (servePiData plainBuiltins brokenPipeEnv (Some report) stockedWorld).1 = None
  /\ serving (servePiData plainBuiltins brokenPipeEnv (Some report) stockedWorld).2
     = false
  /\ fridge_items (servePiData plainBuiltins brokenPipeEnv (Some report) stockedWorld).2
     = fridge_items stockedWorld
  /\ events (servePiData plainBuiltins brokenPipeEnv (Some report) stockedWorld).2
     = events stockedWorld
  /\ (servePiData plainBuiltins
        {| ingest_env := quietEnv crashedRun; child_error := None |}
        (Some report) stockedWorld).1
     = Some {| status := 500;
               body := BodyError (js "Python script failed: Traceback") |}
  /\ (servePiData plainBuiltins
        {| ingest_env := quietEnv stdinThrowsRun; child_error := None |}
        (Some report) stockedWorld).1
     = Some {| status := 500;
               body := BodyError
                         (js "Failed to write to python process: write after end") |}
  /\ (servePiData plainBuiltins brokenPipeEnv (Some noImageReport) stockedWorld).1
     = Some {| status := 400; body := BodyError (js "No image_base64 data received") |}.
Proof. repeat split. Qed.

(** Once vision succeeds, the response is the success response with the
    computed ml_result (the detected items of the vision output and the
    sensor evaluator's alert), whatever the outcome of deleteMany,
    insertMany, insertOne and of the log file's write; a failing deleteMany
    or insertMany, and an insertOne that throws, leave a line on the
    console. *)
Lemma ingest_responds_after_vision (B : Builtins) (env : IngestEnv) (data : Obj)
    (w : World) (vr : VisionOutput) :
  truthy (prop data "image_base64") = true ->
  invokeLocalVision B (vision_run env) = inr vr ->
  let data' := <[js "server_timestamp" := VStr (toISOString B (clock env))]> data in
  (handlePiData B env (Some data) w).1
  = {| status := 200;
       body := BodyIngested (prop data' "event")
                 {| detected_items := default [] (vo_detected_items vr);
                    ml_is_alert := is_alert (runSensorLogic B data');
                    ml_alert_reason := alert_reason (runSensorLogic B data') |} |}
  /\ (forall m, deleteMany_error env = Some m ->
        In (LogError "Failed to update fridge_items collection:" m)
           (console (handlePiData B env (Some data) w).2))
  /\ (forall k m, deleteMany_error env = None ->
        vo_detected_items vr <> None -> vo_detected_items vr <> Some [] ->
        insertMany_error env = Some (k, m) ->
        In (LogError "Failed to update fridge_items collection:" m)
           (console (handlePiData B env (Some data) w).2))
  /\ (forall m, insertOne_outcome env = InsertOneThrows m ->
        In (LogError "Event log insert operation error:" m)
           (console (handlePiData B env (Some data) w).2)).
Proof.
  intros Himg Hvis data'. unfold handlePiData. rewrite Himg, Hvis. simpl.
  split; [reflexivity|].
  assert (Hsave : forall e w0 l, In l (console w0) -> In l (console (saveEvent env e w0))).
  { intros e w0 l Hin. unfold saveEvent.
    destruct (insertOne_outcome env); simpl; auto; apply in_or_app; auto. }
  split; [|split].
  - intros m Hd. apply Hsave. unfold updateFridge. rewrite Hd. simpl.
    apply in_or_app. right. left. reflexivity.
  - intros k m Hd Hn1 Hn2 Hi. apply Hsave. unfold updateFridge. rewrite Hd, Hi.
    destruct (vo_detected_items vr) as [[|d ds]|]; try congruence. simpl.
    apply in_or_app. right. left. reflexivity.
  - intros m Ho. unfold saveEvent. rewrite Ho. simpl.
    apply in_or_app. right. left. reflexivity.
Qed.

Lemma ingest_responds_after_vision_witness :
  (handlePiData plainBuiltins failingDbEnv (Some report) stockedWorld).1
  = (handlePiData plainBuiltins (quietEnv (visionSees [milk; yoghurt])) (Some report)
       stockedWorld).1
  /\ status (handlePiData plainBuiltins failingDbEnv (Some report) stockedWorld).1 = 200.
Proof.
  destruct (ingest_responds_after_vision plainBuiltins failingDbEnv report stockedWorld
              {| vo_error := VUndef; vo_detected_items := Some [milk; yoghurt] |})
    as (H1 & _); try (vm_compute; reflexivity).
  destruct (ingest_responds_after_vision plainBuiltins
              (quietEnv (visionSees [milk; yoghurt])) report stockedWorld
              {| vo_error := VUndef; vo_detected_items := Some [milk; yoghurt] |})
    as (H2 & _); try (vm_compute; reflexivity).
  split.
  - rewrite H1, H2. reflexivity.
  - rewrite H1. reflexivity.
Defined.

(** C5, at a failing input: vision succeeds and the promise of the events
    insertOne rejects.  The response is still the success response with the
    computed ml_result, but the event is not stored and the route writes no
    error line for it: the rejection is not handled, unlike a synchronous
    throw of insertOne and unlike the write of the log file. *)
Theorem ingest_event_rejection_unlogged :
  (handlePiData plainBuiltins rejectingEnv (Some report) stockedWorld).1
  = (handlePiData plainBuiltins (quietEnv (visionSees [milk; yoghurt])) (Some report)
       stockedWorld).1
  /\ status (handlePiData plainBuiltins rejectingEnv (Some report) stockedWorld).1 = 200
  /\ events (handlePiData plainBuiltins rejectingEnv (Some report) stockedWorld).2
     = events stockedWorld
  /\ existsb isErrorLine
       (console (handlePiData plainBuiltins rejectingEnv (Some report) stockedWorld).2)
     = false
  /\ existsb isErrorLine
       (console (handlePiData plainBuiltins throwingEnv (Some report) stockedWorld).2)
     = true
  /\ existsb isErrorLine
       (console (handlePiData plainBuiltins logFileFailsEnv (Some report) stockedWorld).2)
     = true.
Proof. repeat split. Qed.

(** ** The recipe route *)

Lemma takeFirst_ok : sample_ok takeFirst.
Proof.
  intros n coll. unfold takeFirst. split.
  - apply length_take.
  - intros d Hin. apply list_elem_of_In in Hin. apply list_elem_of_In.
    exact (subseteq_take n coll d Hin).
Qed.

Lemma sample_nil_iff (pick : nat -> list Obj -> list Obj) (coll : list Obj) :
  sample_ok pick -> (map nameOf (pick 3%nat coll) = [] <-> coll = []).
Proof.
  intros Hok. destruct (Hok 3%nat coll) as [Hlen _]. split.
  - intros Hnil. apply (f_equal length) in Hnil. rewrite length_map, Hlen in Hnil.
    destruct coll; [reflexivity | simpl in Hnil; discriminate].
  - intros ->. simpl in Hlen. apply length_zero_iff_nil in Hlen. rewrite Hlen. reflexivity.
Qed.

(** C6, as stated, fails: with an empty fridge (so that no stored item
    expires in any window) and a days parameter that is not a number, the
    request does not end as not-found. *)
Lemma recipe_empty_fridge_not_always_404 :
  ~ (forall (B : Builtins) (env : RecipeEnv) (days : option jsstring) (w : World),
       find_error env = None -> aggregate_error env = None -> sample_ok (sample env) ->
       fridge_items w = [] ->
       status (ro_response (handleRecipe B env days w)) = 404).
Proof.
  intros H.
  specialize (H plainBuiltins (recipeEnv 1700000000000 (HfReturns [])) (Some (js "abc"))
                emptyWorld eq_refl eq_refl takeFirst_ok eq_refl).
  vm_compute in H. discriminate H.
Qed.

(** C6, amended: for every recipe request whose window is well formed (the
    upper bound is a valid date) and whose reads of the store succeed, if
    no stored item expires within the window, the topic set is the names of
    a sample of at most 3 items of the store; when that list is empty,
    which happens exactly when the fridge holds no item, the response is
    the not-found one (status 404) and the text-generation service is not
    called; otherwise the response is a success for the sampled names. *)
Theorem recipe_fallback_and_not_found (B : Builtins) (env : RecipeEnv)
    (days : option jsstring) (w : World) (limit : Z) :
  expiry_limit B env days = Some limit ->
  find_error env = None ->
  aggregate_error env = None ->
  sample_ok (sample env) ->
  queryExpiringBetween (today env) limit (fridge_items w) = [] ->
  let out := handleRecipe B env days w in
  let picked := sample env 3%nat (fridge_items w) in
  ro_sampled out = true
  /\ (length picked <= 3)%nat
  /\ (forall d, In d picked -> In d (fridge_items w))
  /\ (map nameOf picked = [] <-> fridge_items w = [])
  /\ (fridge_items w = [] ->
        ro_response out
        = {| status := 404;
             body := BodyError (js "No items found in fridge to make a recipe.") |}
        /\ ro_hf_called out = false)
  /\ (fridge_items w <> [] ->
        ro_response out
        = {| status := 200;
             body := BodyRecipe (map nameOf picked)
                       (recipes (getRecipeFromHF B (hf_outcome env) (map nameOf picked))) |}).
Proof.
  intros Hlim Hfind Hagg Hok Hnone out picked.
  destruct (Hok 3%nat (fridge_items w)) as [Hlen Hin].
  pose proof (sample_nil_iff (sample env) (fridge_items w) Hok) as Hnil.
  assert (Hout : out =
    if Nat.eqb (length (map nameOf picked)) 0 then
      {| ro_response :=
           {| status := 404;
              body := BodyError (js "No items found in fridge to make a recipe.") |};
         ro_queried := true; ro_sampled := true; ro_hf_called := false;
         ro_console := [LogInfo "Getting recipe for items expiring between";
                        LogInfo "No expiring items, grabbing random items..."] |}
    else
      {| ro_response :=
           {| status := 200;
              body := BodyRecipe (map nameOf picked)
                        (recipes (getRecipeFromHF B (hf_outcome env) (map nameOf picked))) |};
         ro_queried := true; ro_sampled := true;
         ro_hf_called := hf_called (getRecipeFromHF B (hf_outcome env) (map nameOf picked));
         ro_console := [LogInfo "Getting recipe for items expiring between";
                        LogInfo "No expiring items, grabbing random items..."]
                       ++ recipe_console
                            (getRecipeFromHF B (hf_outcome env) (map nameOf picked)) |}).
  { subst out picked. unfold handleRecipe. rewrite Hlim, Hfind, Hnone. simpl.
    rewrite Hagg. reflexivity. }
  split; [|split; [|split; [|split; [|split]]]].
  - rewrite Hout. destruct (Nat.eqb _ _); reflexivity.
  - fold picked in Hlen. lia.
  - exact Hin.
  - exact Hnil.
  - intros Hempty. apply Hnil in Hempty. fold picked in Hempty.
    rewrite Hout, Hempty. simpl. auto.
  - intros Hne. rewrite Hout.
    destruct (map nameOf picked) as [|n ns] eqn:Hnames.
    + exfalso. apply Hne, Hnil. exact Hnames.
    + reflexivity.
Qed.

Lemma recipe_fallback_and_not_found_witness :
  ro_response (handleRecipe plainBuiltins (recipeEnv 1700000000000 (HfReturns []))
                 (Some (js "2")) emptyWorld)
  = {| status := 404;
       body := BodyError (js "No items found in fridge to make a recipe.") |}
  /\ ro_hf_called (handleRecipe plainBuiltins (recipeEnv 1700000000000 (HfReturns []))
                     (Some (js "2")) emptyWorld) = false.
Proof.
  apply (recipe_fallback_and_not_found plainBuiltins
           (recipeEnv 1700000000000 (HfReturns [])) (Some (js "2")) emptyWorld
           (1700000000000 + 2 * 86400000));
    try reflexivity.
  apply takeFirst_ok.
Defined.

Example parseInt10_values :
  parseInt10 (js "abc") = None
  /\ parseInt10 (js "  -12px") = Some (-12)
  /\ parseInt10 (js "7") = Some 7
  /\ parseInt10 (js "+") = None.
Proof. repeat split. Qed.

Example recipe_days_abc_against_default :
  status (ro_response (handleRecipe plainBuiltins
                         (recipeEnv 1700000000000 (HfThrows [])) None unlabelledWorld)) = 200
  /\ ro_sampled (handleRecipe plainBuiltins
                   (recipeEnv 1700000000000 (HfThrows [])) None unlabelledWorld) = true
  /\ status (ro_response (handleRecipe plainBuiltins
                            (recipeEnv 1700000000000 (HfThrows [])) (Some (js "abc"))
                            unlabelledWorld)) = 500.
Proof. repeat split. Qed.

(** C10, as stated, fails: with days=abc the handler never runs the
    expiring-items query and never samples; the request ends in the catch
    block, whereas the same request without the parameter, for which no
    item is expiring either, goes on to the sample and succeeds. *)
Lemma recipe_unparseable_days_no_fallback :
  ~ (forall (B : Builtins) (env : RecipeEnv) (s : jsstring) (w : World),
       s <> [] -> parseInt10 s = None ->
       find_error env = None -> aggregate_error env = None ->
       ro_queried (handleRecipe B env (Some s) w) = true
       /\ ro_sampled (handleRecipe B env (Some s) w) = true).
Proof.
  intros H.
  destruct (H plainBuiltins (recipeEnv 1700000000000 (HfThrows [])) (js "abc")
              unlabelledWorld) as (Hq & _); try reflexivity.
  - vm_compute. discriminate.
  - vm_compute in Hq. discriminate Hq.
Qed.

(** C10, amended: for every recipe request whose days parameter is present
    and is not parseable as an integer.  When the parameter is the empty
    string it is falsy, and the request is handled as one without the
    parameter (3 days).  Otherwise the parsed value is NaN and the upper
    expiry bound is an Invalid Date; formatting that bound for the console
    raises, so the request ends in the handler's catch block: the response
    has status 500 (a server error, not a client error), the store is
    neither queried nor sampled and the text-generation service is not
    called. *)
Theorem recipe_unparseable_days (B : Builtins) (env : RecipeEnv) (s : jsstring)
    (w : World) :
  parseInt10 s = None ->
  (s <> [] ->
     days_to_expire (Some s) = None
     /\ expiry_limit B env (Some s) = None
     /\ ro_response (handleRecipe B env (Some s) w)
        = {| status := 500; body := BodyError (js "Failed to generate recipe.") |}
     /\ ro_queried (handleRecipe B env (Some s) w) = false
     /\ ro_sampled (handleRecipe B env (Some s) w) = false
     /\ ro_hf_called (handleRecipe B env (Some s) w) = false)
  /\ (s = [] ->
      days_to_expire (Some s) = Some 3
      /\ handleRecipe B env (Some s) w = handleRecipe B env None w).
Proof.
  intros Hnan. split.
  - intros Hne.
    assert (Hd : days_to_expire (Some s) = None).
    { unfold days_to_expire. destruct s as [|c s]; [congruence|]. simpl. exact Hnan. }
    assert (He : expiry_limit B env (Some s) = None).
    { unfold expiry_limit. rewrite Hd. reflexivity. }
    split; [exact Hd|]. split; [exact He|].
    unfold handleRecipe. rewrite He. simpl. repeat split.
  - intros ->. split; reflexivity.
Qed.

Lemma recipe_unparseable_days_witness :
  ro_response (handleRecipe plainBuiltins (recipeEnv 1700000000000 (HfThrows []))
                 (Some (js "abc")) unlabelledWorld)
  = {| status := 500; body := BodyError (js "Failed to generate recipe.") |}
  /\ handleRecipe plainBuiltins (recipeEnv 1700000000000 (HfThrows [])) (Some [])
       unlabelledWorld
     = handleRecipe plainBuiltins (recipeEnv 1700000000000 (HfThrows [])) None
         unlabelledWorld.
Proof.
  split.
  - apply (proj1 (recipe_unparseable_days plainBuiltins
                    (recipeEnv 1700000000000 (HfThrows [])) (js "abc") unlabelledWorld
                    eq_refl)).
    vm_compute. discriminate.
  - apply (proj2 (recipe_unparseable_days plainBuiltins
                    (recipeEnv 1700000000000 (HfThrows [])) [] unlabelledWorld eq_refl)).
    reflexivity.
Defined.

(** ** The recipe requester *)


Lemma lineTerminator_whitespace (c : N) :
  isLineTerminator c = true -> isWhiteSpace c = true.
Proof. intros H. unfold isWhiteSpace. rewrite H. reflexivity. Qed.




Lemma splitGo_nonempty (sep s acc : jsstring) (skip : nat) : splitGo sep s acc skip <> [].
Proof.
  revert acc skip. induction s as [|c s IH]; intros acc skip; simpl; [discriminate|].
  destruct skip; [|apply IH]. destruct (isPrefix sep (c :: s)); [discriminate | apply IH].
Qed.




(** C8, as stated, fails: the salvage looks at the response after the
    prompt has been removed and the text trimmed, and returns that text.
    A response of three spaces is not empty and gives the parser no
    Recipe, and the requester returns no Recipe at all. *)
Lemma blank_response_gives_no_recipe :
  ~ (forall (B : Builtins) (objects : list JsVal) (generated_text : jsstring),
       objects <> [] ->
       generated_text <> [] ->
       parsedRecipes (generatedTextOf B objects generated_text) = [] ->
       recipes (getRecipeFromHF B (HfReturns generated_text) objects)
       = [ {| title := js "Generated Recipes (Parsing Failed)";
              description := generated_text |} ]).
Proof.
  intros H.
  specialize (H plainBuiltins [VStr (js "egg")] (js "   ")).
  assert (H1 : [VStr (js "egg")] <> []) by discriminate.
  assert (H2 : js "   " <> []) by (vm_compute; discriminate).
  specialize (H H1 H2 eq_refl). vm_compute in H. discriminate H.
Qed.

(** C8, amended: for every answer of the service whose generated text (the
    answer without the first occurrence of the prompt, trimmed) is not
    empty and from which the parser, its two-line fallback included, gets
    no Recipe, the requester returns exactly one Recipe, titled as a
    parsing failure, whose description is that generated text. *)
Theorem getRecipeFromHF_salvage (B : Builtins) (objects : list JsVal)
    (generated_text : jsstring) :
  objects <> [] ->
  generatedTextOf B objects generated_text <> [] ->
  parsedRecipes (generatedTextOf B objects generated_text) = [] ->
  recipes (getRecipeFromHF B (HfReturns generated_text) objects)
  = [ {| title := js "Generated Recipes (Parsing Failed)";
         description := generatedTextOf B objects generated_text |} ].
Proof.
  intros Hobj Hne Hnone. destruct objects as [|o os]; [congruence|]. simpl.
  rewrite Hnone. destruct (generatedTextOf B (o :: os) generated_text); [congruence|].
  reflexivity.
Qed.

Lemma getRecipeFromHF_salvage_witness :
  recipes (getRecipeFromHF plainBuiltins (HfReturns (js "  No idea. ")) [VStr (js "egg")])
  = [ {| title := js "Generated Recipes (Parsing Failed)";
         description := js "No idea." |} ].
Proof.
  apply (getRecipeFromHF_salvage plainBuiltins [VStr (js "egg")] (js "  No idea. ")).
  - discriminate.
  - vm_compute. discriminate.
  - vm_compute. reflexivity.
Defined.

(** C9: for every non-empty list of item names, when the call of the
    text-generation service throws, the requester still returns: its
    result is exactly one Recipe whose title and description say that the
    generation failed, the error's message is written to the console, and
    the recipe route answers with status 200 and that Recipe. *)
Theorem getRecipeFromHF_service_failure (B : Builtins) (objects : list JsVal)
    (message : jsstring) :
  objects <> [] ->
  recipes (getRecipeFromHF B (HfThrows message) objects)
  = [ {| title := js "Recipe Generation Failed";
         description := js "Could not generate recipe. Check server logs." |} ]
  /\ In (LogError "HF Text Generation Error: " message)
        (recipe_console (getRecipeFromHF B (HfThrows message) objects))
  /\ (forall env days w limit,
        hf_outcome env = HfThrows message ->
        expiry_limit B env days = Some limit ->
        find_error env = None ->
        map nameOf (queryExpiringBetween (today env) limit (fridge_items w)) = objects ->
        ro_response (handleRecipe B env days w)
        = {| status := 200; body := BodyRecipe objects [generationFailedRecipe] |}).
Proof.
  intros Hobj. destruct objects as [|o os]; [congruence|].
  split; [reflexivity|]. split; [simpl; auto|].
  intros env days w limit Hhf Hlim Hfind Hnames.
  unfold handleRecipe. rewrite Hlim, Hfind, Hnames, Hhf. reflexivity.
Qed.

Lemma getRecipeFromHF_service_failure_witness :
  recipes (getRecipeFromHF plainBuiltins (HfThrows (js "503")) [VStr (js "egg")])
  = [ {| title := js "Recipe Generation Failed";
         description := js "Could not generate recipe. Check server logs." |} ].
Proof.
  apply (getRecipeFromHF_service_failure plainBuiltins [VStr (js "egg")] (js "503")).
  discriminate.
Defined.

(** * Further properties of the code *)

(** ** The vision invoker *)

(** X1: The vision invoker resolves exactly when the input could be written,
    the process exited with code 0, its output parsed, and the output
    carries no truthy error field; the value it resolves with is the parsed
    output. *)
Theorem invokeLocalVision_succeeds_iff (B : Builtins) (run : VisionRun)
    (out : VisionOutput) :
  invokeLocalVision B run = inr out <->
  stdin_error run = None /\ exit_code run = 0 /\ scriptOutput run = Some out
  /\ truthy (vo_error out) = false.
Proof.
  unfold invokeLocalVision. split.
  - destruct (stdin_error run); [discriminate|].
    destruct (exit_code run =? 0) eqn:Hc; simpl; [|discriminate].
    apply Z.eqb_eq in Hc.
    destruct (scriptOutput run) as [o|]; [|discriminate].
    destruct (truthy (vo_error o)) eqn:Ht; [discriminate|].
    intros H. injection H as <-. auto.
  - intros (-> & -> & -> & ->). reflexivity.
Qed.

(** ** The ingest route: how one request unfolds *)

Lemma handlePiData_no_image (B : Builtins) (env : IngestEnv) (reqbody : option Obj)
    (w : World) :
  missingImage reqbody ->
  handlePiData B env reqbody w
  = ({| status := 400; body := BodyError (js "No image_base64 data received") |},
     say (LogWarn "Received request with no image data.") w).
Proof.
  destruct reqbody as [data|]; simpl; [|reflexivity]. intros ->. reflexivity.
Qed.

Lemma handlePiData_vision_error (B : Builtins) (env : IngestEnv) (data : Obj)
    (w : World) (m : jsstring) :
  truthy (prop data "image_base64") = true ->
  invokeLocalVision B (vision_run env) = inl m ->
  handlePiData B env (Some data) w
  = ({| status := 500; body := BodyError m |},
     say (LogError "[ERROR] Failed to process request: " m)
       (appendLog env
          (<[js "server_timestamp" := VStr (toISOString B (clock env))]> data)
          (say (LogInfo "--- Data Received ---") w))).
Proof. intros Himg Hm. unfold handlePiData. rewrite Himg, Hm. reflexivity. Qed.

Lemma handlePiData_vision_ok (B : Builtins) (env : IngestEnv) (data : Obj)
    (w : World) (out : VisionOutput) :
  truthy (prop data "image_base64") = true ->
  invokeLocalVision B (vision_run env) = inr out ->
  let data' := <[js "server_timestamp" := VStr (toISOString B (clock env))]> data in
  let ml := {| detected_items := default [] (vo_detected_items out);
               ml_is_alert := is_alert (runSensorLogic B data');
               ml_alert_reason := alert_reason (runSensorLogic B data') |} in
  handlePiData B env (Some data) w
  = ({| status := 200; body := BodyIngested (prop data' "event") ml |},
     saveEvent env {| ev_data := data'; ev_ml_result := ml |}
       (updateFridge B env (clock env) (detected_items ml)
          (say (LogInfo "--- Combined ML Result ---")
             (say (LogInfo "Local Vision Result:")
                (appendLog env data' (say (LogInfo "--- Data Received ---") w)))))).
Proof. intros Himg Hm. unfold handlePiData. rewrite Himg, Hm. reflexivity. Qed.

(** Every request falls in one of the three cases above. *)
Lemma handlePiData_cases (B : Builtins) (env : IngestEnv) (reqbody : option Obj) :
  missingImage reqbody
  \/ (exists data m, reqbody = Some data /\ truthy (prop data "image_base64") = true
                     /\ invokeLocalVision B (vision_run env) = inl m)
  \/ (exists data out, reqbody = Some data /\ truthy (prop data "image_base64") = true
                       /\ invokeLocalVision B (vision_run env) = inr out).
Proof.
  destruct reqbody as [data|]; [|left; exact I].
  destruct (truthy (prop data "image_base64")) eqn:Himg; [|left; exact Himg].
  right. destruct (invokeLocalVision B (vision_run env)) as [m|out] eqn:Hv.
  - left. eauto.
  - right. eauto.
Qed.

(** What each step leaves alone. *)
Lemma updateFridge_frame (B : Builtins) (env : IngestEnv) (ts : Z)
    (detected : list Obj) (w : World) :
  events (updateFridge B env ts detected w) = events w
  /\ log_file (updateFridge B env ts detected w) = log_file w.
Proof.
  unfold updateFridge. destruct (deleteMany_error env); [auto|].
  destruct (0 <? length detected)%nat; [|auto].
  destruct (insertMany_error env) as [[k m]|]; auto.
Qed.

Lemma saveEvent_frame (env : IngestEnv) (e : EventDoc) (w : World) :
  log_file (saveEvent env e w) = log_file w
  /\ events (saveEvent env e w)
     = match insertOne_outcome env with
       | InsertOneOk => events w ++ [e]
       | _ => events w
       end.
Proof. unfold saveEvent. destruct (insertOne_outcome env); auto. Qed.




(** ** The ingest route: responses *)






(** ** The ingest route: what it writes *)

(** X5: The events collection only grows, by at most one document per request;
    a document is added exactly when the response has status 200 and the
    insert is fulfilled, and it then holds the body with the server's
    timestamp and the very ml_result of the response. *)
Theorem handlePiData_events (B : Builtins) (env : IngestEnv) (reqbody : option Obj)
    (w : World) :
  (events (handlePiData B env reqbody w).2 = events w
   \/ exists e, events (handlePiData B env reqbody w).2 = events w ++ [e])
  /\ (forall data ev ml,
        reqbody = Some data ->
        body (handlePiData B env reqbody w).1 = BodyIngested ev ml ->
        insertOne_outcome env = InsertOneOk ->
        events (handlePiData B env reqbody w).2
        = events w
          ++ [ {| ev_data := <[js "server_timestamp" :=
                                 VStr (toISOString B (clock env))]> data;
                  ev_ml_result := ml |} ])
  /\ (status (handlePiData B env reqbody w).1 <> 200
      \/ insertOne_outcome env <> InsertOneOk ->
      events (handlePiData B env reqbody w).2 = events w).
Proof.
  destruct (handlePiData_cases B env reqbody)
    as [Hmiss | [(data & m & -> & Himg & Hv) | (data & out & -> & Himg & Hv)]].
  - rewrite (handlePiData_no_image B env reqbody w Hmiss). simpl.
    split; [auto|]. split; [discriminate | auto].
  - rewrite (handlePiData_vision_error B env data w m Himg Hv). simpl.
    destruct (fridge_appendLog env
                (<[js "server_timestamp" := VStr (toISOString B (clock env))]> data)
                (say (LogInfo "--- Data Received ---") w)) as (_ & -> & _).
    simpl. split; [auto|]. split; [discriminate | auto].
  - rewrite (handlePiData_vision_ok B env data w out Himg Hv). simpl.
    match goal with
    | |- context [saveEvent env ?e ?w0] =>
        destruct (saveEvent_frame env e w0) as (_ & ->);
        destruct (updateFridge_frame B env (clock env)
                    (default [] (vo_detected_items out))
                    (say (LogInfo "--- Combined ML Result ---")
                       (say (LogInfo "Local Vision Result:")
                          (appendLog env
                             (<[js "server_timestamp" :=
                                  VStr (toISOString B (clock env))]> data)
                             (say (LogInfo "--- Data Received ---") w)))))
          as (Hu & _)
    end.
    simpl in Hu. rewrite Hu. simpl.
    destruct (fridge_appendLog env
                (<[js "server_timestamp" := VStr (toISOString B (clock env))]> data)
                (say (LogInfo "--- Data Received ---") w)) as (_ & -> & _).
    simpl. split; [|split].
    + destruct (insertOne_outcome env); eauto.
    + intros d ev ml Hd Hb Ho. injection Hd as <-. injection Hb as _ <-.
      rewrite Ho. reflexivity.
    + intros [H|H]; [congruence|]. destruct (insertOne_outcome env); congruence.
Qed.

Lemma handlePiData_events_witness :
  length (events (handlePiData plainBuiltins (quietEnv (visionSees [milk; yoghurt]))
                    (Some report) stockedWorld).2) = 1%nat
  /\ events (handlePiData plainBuiltins rejectingEnv (Some report) stockedWorld).2 = [].
Proof.
  split.
  - rewrite (proj1 (proj2 (handlePiData_events plainBuiltins
                             (quietEnv (visionSees [milk; yoghurt])) (Some report)
                             stockedWorld)) report _ _ eq_refl eq_refl eq_refl).
    reflexivity.
  - apply (proj2 (proj2 (handlePiData_events plainBuiltins rejectingEnv (Some report)
                           stockedWorld))).
    right. discriminate.
Defined.





(** ** The sensor evaluator, further *)

Lemma reasons_distinct :
  reasonGas <> reasonAllClear /\ reasonDoor <> reasonAllClear /\ reasonGas <> reasonDoor.
Proof. repeat split; vm_compute; discriminate. Qed.

(** X8: The flag and the reason of the evaluator agree: the reason is one of
    the three texts, and it is the all-clear text exactly when there is no
    alert. *)
Theorem runSensorLogic_reason_consistent (B : Builtins) (data : Obj) :
  (alert_reason (runSensorLogic B data) = reasonAllClear
   \/ alert_reason (runSensorLogic B data) = reasonGas
   \/ alert_reason (runSensorLogic B data) = reasonDoor)
  /\ (is_alert (runSensorLogic B data) = false <->
      alert_reason (runSensorLogic B data) = reasonAllClear).
Proof.
  destruct reasons_distinct as (Hg & Hd & _).
  unfold runSensorLogic.
  destruct (js_gt _ _); [|destruct (strictEqStr _ _)]; simpl;
    (split; [auto|]); split; try discriminate; try reflexivity; intros H; congruence.
Qed.

(** X9: For a numeric gas level the threshold is exclusive: the gas alert is
    raised exactly when the level is strictly above 50, whatever the other
    fields are. *)
Theorem runSensorLogic_threshold (B : Builtins) (data : Obj) (q : Q) :
  prop data "gas_level_percent" = VNum (Fin q) ->
  (alert_reason (runSensorLogic B data) = reasonGas <-> (50 < q)%Q).
Proof.
  intros Hg. destruct reasons_distinct as (Hga & Hda & Hgd).
  unfold runSensorLogic. rewrite Hg. simpl.
  destruct (Qle_bool q 50) eqn:Hle; simpl.
  - apply Qle_bool_iff in Hle. split.
    + destruct (strictEqStr _ _); simpl; intros H; congruence.
    + intros Hlt. exfalso. exact (Qlt_not_le _ _ Hlt Hle).
  - split; [|reflexivity]. intros _. apply Qnot_le_lt. intros Hle'.
    apply Qle_bool_iff in Hle'. congruence.
Qed.

Lemma runSensorLogic_threshold_witness :
  alert_reason (runSensorLogic plainBuiltins hotOpen) = reasonGas.
Proof.
  apply (proj2 (runSensorLogic_threshold plainBuiltins hotOpen 80 eq_refl)).
  reflexivity.
Defined.

(** ** Identifiers of inserted documents *)

Lemma assignIds_length (next : N) (docs : list Obj) :
  length (assignIds next docs).1 = length docs.
Proof.
  revert next. induction docs as [|d ds IH]; intros next; simpl; [reflexivity|].
  destruct (d !! js "_id"); simpl; rewrite IH; reflexivity.
Qed.

Lemma assignIds_fresh (next : N) (docs : list Obj) :
  Forall (fun d => d !! js "_id" = None) docs ->
  map (fun d : Obj => d !! js "_id") (assignIds next docs).1
  = map (fun i => Some (VRef (next + N.of_nat i))) (seq 0 (length docs))
  /\ (assignIds next docs).2 = (next + N.of_nat (length docs))%N.
Proof.
  intros Hall. revert next.
  induction Hall as [|d ds Hd _ IH]; intros next.
  - simpl. split; [reflexivity | lia].
  - simpl. rewrite Hd. simpl. destruct (IH (N.succ next)) as (IH1 & IH2).
    rewrite lookup_insert_eq, IH1, IH2. split.
    + f_equal; [f_equal; f_equal; lia|].
      rewrite <- seq_shift, map_map. apply map_ext. intros i. f_equal. f_equal. lia.
    + lia.
Qed.

(** Documents inserted without an identifier get pairwise distinct ones,
    taken from the driver's supply, which advances by their number; a
    document that carries its own identifier keeps it. *)
Theorem assignIds_distinct (next : N) (docs : list Obj) :
  (Forall (fun d => d !! js "_id" = None) docs ->
     NoDup (map (fun d : Obj => d !! js "_id") (assignIds next docs).1)
     /\ (assignIds next docs).2 = (next + N.of_nat (length docs))%N)
  /\ Forall2 (fun d d' => forall v, d !! js "_id" = Some v -> d' = d)
       docs (assignIds next docs).1.
Proof.
  split.
  - intros Hall. destruct (assignIds_fresh next docs Hall) as (-> & ->).
    split; [|reflexivity].
    apply NoDup_fmap_2; [|apply NoDup_seq].
    intros i j H. injection H as H. lia.
  - revert next. induction docs as [|d ds IH]; intros next; simpl; [constructor|].
    destruct (d !! js "_id") as [v|] eqn:Hd; simpl.
    + constructor; [reflexivity | apply IH].
    + constructor; [intros v Hv; congruence | apply IH].
Qed.

Lemma assignIds_distinct_witness :
  NoDup (map (fun d : Obj => d !! js "_id") (assignIds 7 [milk; yoghurt; milk]).1).
Proof.
  apply (proj1 (assignIds_distinct 7 [milk; yoghurt; milk])).
  repeat constructor.
Defined.

(** ** From the ingest route to the expiring-items query *)




Example expiring_after_ingest_selects :
  map nameOf
    (queryExpiringBetween 1000 9000
       (fridge_items
          (handlePiData decimalBuiltins (quietEnv (visionSees [milk; yoghurtSeen; mysterySeen]))
             (Some report) stockedWorld).2))
  = [VStr (js "yoghurt")]
  /\ map nameOf
       (queryExpiringBetween (-1000) 9000
          (fridge_items
             (handlePiData decimalBuiltins
                (quietEnv (visionSees [milk; yoghurtSeen; mysterySeen]))
                (Some report) stockedWorld).2))
     = [VStr (js "yoghurt"); VStr (js "mystery")].
Proof. split; vm_compute; reflexivity. Qed.


(** ** The recipe route, further *)

(** The outcome of a request whose window is well formed and whose reads
    answer. *)
Lemma handleRecipe_reads_ok (B : Builtins) (env : RecipeEnv) (days : option jsstring)
    (w : World) (limit : Z) :
  expiry_limit B env days = Some limit ->
  find_error env = None ->
  aggregate_error env = None ->
  let expiring := map nameOf (queryExpiringBetween (today env) limit (fridge_items w)) in
  let fallback := Nat.eqb (length expiring) 0 in
  let itemsList :=
    if fallback then map nameOf (sample env 3%nat (fridge_items w)) else expiring in
  ro_sampled (handleRecipe B env days w) = fallback
  /\ ro_queried (handleRecipe B env days w) = true
  /\ ro_response (handleRecipe B env days w)
     = (if Nat.eqb (length itemsList) 0
        then {| status := 404;
                body := BodyError (js "No items found in fridge to make a recipe.") |}
        else {| status := 200;
                body := BodyRecipe itemsList
                          (recipes (getRecipeFromHF B (hf_outcome env) itemsList)) |}).
Proof.
  intros Hlim Hfind Hagg expiring fallback itemsList.
  unfold handleRecipe. rewrite Hlim, Hfind. fold expiring. fold fallback.
  assert (Hnone : (if fallback then aggregate_error env else None) = None).
  { destruct fallback; [exact Hagg | reflexivity]. }
  rewrite Hnone. fold itemsList.
  destruct (Nat.eqb (length itemsList) 0); simpl; auto.
Qed.

(** X11: With a well-formed window, answering reads and a sample that follows
    [$sample], the route answers 404 exactly when the fridge is empty and
    200 otherwise; the names it answers 200 for are never an empty list. *)
Theorem recipe_not_found_iff_empty (B : Builtins) (env : RecipeEnv)
    (days : option jsstring) (w : World) (limit : Z) :
  expiry_limit B env days = Some limit ->
  find_error env = None ->
  aggregate_error env = None ->
  sample_ok (sample env) ->
  (status (ro_response (handleRecipe B env days w)) = 404 <-> fridge_items w = [])
  /\ (status (ro_response (handleRecipe B env days w)) = 200 <-> fridge_items w <> [])
  /\ (forall names rs,
        body (ro_response (handleRecipe B env days w)) = BodyRecipe names rs ->
        names <> []).
Proof.
  intros Hlim Hfind Hagg Hok.
  destruct (handleRecipe_reads_ok B env days w limit Hlim Hfind Hagg) as (_ & _ & Hr).
  rewrite Hr. clear Hr.
  pose proof (sample_nil_iff (sample env) (fridge_items w) Hok) as Hnil.
  set (expiring := map nameOf (queryExpiringBetween (today env) limit (fridge_items w))).
  assert (Hexp : fridge_items w = [] -> expiring = []).
  { intros Hw. unfold expiring. rewrite Hw. reflexivity. }
  destruct expiring as [|n ns] eqn:He; simpl.
  - destruct (map nameOf (sample env 3%nat (fridge_items w))) as [|m ms] eqn:Hs; simpl.
    + assert (Hw : fridge_items w = []) by (apply Hnil; reflexivity).
      split; [tauto|]. split; [|discriminate].
      split; [discriminate | congruence].
    + assert (Hw : fridge_items w <> []).
      { intros Hw. apply Hnil in Hw. discriminate. }
      split; [split; [discriminate | contradiction]|].
      split; [tauto|]. intros names rs H. injection H as <- _. discriminate.
  - assert (Hw : fridge_items w <> []).
    { intros Hw. apply Hexp in Hw. discriminate. }
    split; [split; [discriminate | contradiction]|].
    split; [tauto|]. intros names rs H. injection H as <- _. discriminate.
Qed.

Lemma recipe_not_found_iff_empty_witness :
  status (ro_response (handleRecipe plainBuiltins (recipeEnv 1700000000000 (HfThrows []))
                         (Some (js "5")) unlabelledWorld)) = 200.
Proof.
  apply (proj1 (proj2 (recipe_not_found_iff_empty plainBuiltins
                         (recipeEnv 1700000000000 (HfThrows [])) (Some (js "5"))
                         unlabelledWorld (1700000000000 + 5 * 86400000)
                         eq_refl eq_refl eq_refl takeFirst_ok))).
  discriminate.
Defined.

(** X12: Expiring items take precedence: when the query selects at least one
    document, the recipe is asked for the names of the selected documents,
    in the order of the store, and no sample is taken. *)
Theorem recipe_prefers_expiring (B : Builtins) (env : RecipeEnv)
    (days : option jsstring) (w : World) (limit : Z) :
  expiry_limit B env days = Some limit ->
  find_error env = None ->
  queryExpiringBetween (today env) limit (fridge_items w) <> [] ->
  ro_sampled (handleRecipe B env days w) = false
  /\ ro_response (handleRecipe B env days w)
     = {| status := 200;
          body := BodyRecipe
                    (map nameOf (queryExpiringBetween (today env) limit (fridge_items w)))
                    (recipes (getRecipeFromHF B (hf_outcome env)
                                (map nameOf (queryExpiringBetween (today env) limit
                                               (fridge_items w))))) |}.
Proof.
  intros Hlim Hfind Hne. unfold handleRecipe. rewrite Hlim, Hfind.
  destruct (queryExpiringBetween (today env) limit (fridge_items w)) as [|d ds];
    [congruence|].
  simpl. auto.
Qed.

Lemma recipe_prefers_expiring_witness :
  ro_sampled (handleRecipe plainBuiltins (recipeEnv 0 (HfThrows [])) None stockedWorld)
  = false.
Proof.
  apply (recipe_prefers_expiring plainBuiltins (recipeEnv 0 (HfThrows [])) None
           stockedWorld (3 * 86400000) eq_refl eq_refl).
  vm_compute. discriminate.
Defined.

(** X13: An inverted window selects nothing: when the upper bound lies before
    the present, as with a negative number of days, the route goes to the
    sample. *)
Theorem recipe_inverted_window_samples (B : Builtins) (env : RecipeEnv)
    (days : option jsstring) (w : World) (limit : Z) :
  expiry_limit B env days = Some limit ->
  limit < today env ->
  find_error env = None ->
  aggregate_error env = None ->
  queryExpiringBetween (today env) limit (fridge_items w) = []
  /\ ro_sampled (handleRecipe B env days w) = true.
Proof.
  intros Hlim Hlt Hfind Hagg.
  assert (Hq : queryExpiringBetween (today env) limit (fridge_items w) = []).
  { unfold queryExpiringBetween. induction (fridge_items w) as [|d ds IH]; [reflexivity|].
    simpl. destruct (expiresWithin (today env) limit d) eqn:He; [|exact IH].
    apply expiresWithin_spec in He as (t & _ & H1 & H2). lia. }
  split; [exact Hq|].
  destruct (handleRecipe_reads_ok B env days w limit Hlim Hfind Hagg) as (-> & _).
  rewrite Hq. reflexivity.
Qed.

Lemma recipe_inverted_window_samples_witness :
  ro_sampled (handleRecipe plainBuiltins (recipeEnv 4000 (HfThrows [])) (Some (js "-1"))
                stockedWorld) = true.
Proof.
  apply (recipe_inverted_window_samples plainBuiltins (recipeEnv 4000 (HfThrows []))
           (Some (js "-1")) stockedWorld (4000 - 86400000) eq_refl);
    try reflexivity.
Defined.

(** X14: The text-generation service is called exactly by the requests that end
    with status 200: never before a 404 or a 500. *)
Theorem recipe_service_called_iff_200 (B : Builtins) (env : RecipeEnv)
    (days : option jsstring) (w : World) :
  ro_hf_called (handleRecipe B env days w) = true <->
  status (ro_response (handleRecipe B env days w)) = 200.
Proof.
  unfold handleRecipe.
  destruct (expiry_limit B env days) as [limit|]; [|simpl; split; discriminate].
  destruct (find_error env); [simpl; split; discriminate|].
  set (expiring := map nameOf (queryExpiringBetween (today env) limit (fridge_items w))).
  destruct (if Nat.eqb (length expiring) 0 then aggregate_error env else None);
    [simpl; split; discriminate|].
  destruct (if Nat.eqb (length expiring) 0
            then map nameOf (sample env 3%nat (fridge_items w)) else expiring)
    as [|n ns]; simpl.
  - split; discriminate.
  - destruct (hf_outcome env); simpl; split; reflexivity.
Qed.

(** ** Splitting and joining *)

Lemma isPrefix_drop (p s : jsstring) :
  isPrefix p s = true -> s = p ++ drop (length p) s.
Proof.
  revert s. induction p as [|a p IH]; intros s H; [reflexivity|].
  destruct s as [|b s]; [discriminate|]. simpl in H.
  apply andb_true_iff in H as [Hab Hp]. apply N.eqb_eq in Hab. subst b.
  simpl. f_equal. apply IH. exact Hp.
Qed.

Lemma isPrefix_app (p r : jsstring) : isPrefix p (p ++ r) = true.
Proof.
  induction p as [|a p IH]; [reflexivity|]. simpl. rewrite N.eqb_refl. exact IH.
Qed.

Lemma join_cons (sep x : jsstring) (l : list jsstring) :
  l <> [] -> join sep (x :: l) = x ++ sep ++ join sep l.
Proof. destruct l; [congruence | reflexivity]. Qed.

Lemma splitGo_join (sep s acc : jsstring) (k : nat) :
  sep <> [] -> (k <= length s)%nat ->
  join sep (splitGo sep s acc k) = rev acc ++ drop k s.
Proof.
  intros Hsep. revert acc k. induction s as [|c s IH]; intros acc k Hk.
  - simpl in Hk. assert (k = 0%nat) as -> by lia. simpl. rewrite app_nil_r. reflexivity.
  - destruct k as [|k]; simpl.
    + destruct (isPrefix sep (c :: s)) eqn:Hp.
      * rewrite join_cons by apply splitGo_nonempty.
        pose proof (isPrefix_drop _ _ Hp) as Hs.
        assert (Hlen : (length sep <= S (length s))%nat).
        { apply (f_equal length) in Hs. rewrite length_app in Hs. simpl in Hs. lia. }
        destruct sep as [|a sep']; [congruence|].
        rewrite IH by (simpl in *; lia). simpl.
        simpl in Hs. rewrite Nat.sub_0_r. rewrite Hs. reflexivity.
      * rewrite IH by lia. simpl. rewrite <- app_assoc. reflexivity.
    + apply IH. simpl in Hk. lia.
Qed.

(** X15: Splitting loses nothing: the pieces of a text, joined again by the
    separator, are the text; and there is always at least one piece. *)
Theorem split_join (sep s : jsstring) :
  sep <> [] -> join sep (split sep s) = s /\ split sep s <> [].
Proof.
  intros Hsep. split; [|apply splitGo_nonempty].
  unfold split. rewrite splitGo_join by (auto; simpl; lia). reflexivity.
Qed.

Lemma split_join_witness : join (js "---") (split (js "---") twoBlocks) = twoBlocks.
Proof. apply (split_join (js "---") twoBlocks). discriminate. Defined.

(** ** The recipe requester, further *)

Lemma prompt_nonempty (B : Builtins) (objects : list JsVal) : prompt B objects <> [].
Proof. unfold prompt. discriminate. Qed.

Lemma removeFirst_prefix (pat r : jsstring) :
  pat <> [] -> removeFirst pat (pat ++ r) = r.
Proof.
  intros Hne. destruct pat as [|a pat]; [congruence|].
  change (removeFirst (a :: pat) ((a :: pat) ++ r))
    with (if isPrefix (a :: pat) ((a :: pat) ++ r)
          then drop (length (a :: pat)) ((a :: pat) ++ r)
          else a :: removeFirst (a :: pat) (pat ++ r)).
  rewrite isPrefix_app. rewrite drop_app_length. reflexivity.
Qed.

(** X16: A service that echoes the prompt in front of its answer: the parser
    works on the answer alone, trimmed, so the recipes do not depend on the
    prompt. *)
Theorem echoed_prompt_is_removed (B : Builtins) (objects : list JsVal)
    (answer : jsstring) :
  objects <> [] ->
  generatedTextOf B objects (prompt B objects ++ answer) = trim answer
  /\ recipes (getRecipeFromHF B (HfReturns (prompt B objects ++ answer)) objects)
     = (if Nat.eqb (length (parsedRecipes (trim answer))) 0
           && (0 <? length (trim answer))%nat
        then [parsingFailedRecipe (trim answer)]
        else parsedRecipes (trim answer)).
Proof.
  intros Hobj.
  assert (He : generatedTextOf B objects (prompt B objects ++ answer) = trim answer).
  { unfold generatedTextOf. rewrite removeFirst_prefix by apply prompt_nonempty.
    reflexivity. }
  split; [exact He|].
  destruct objects as [|o os]; [congruence|].
  unfold getRecipeFromHF. rewrite He. reflexivity.
Qed.

Lemma echoed_prompt_is_removed_witness :
  generatedTextOf plainBuiltins [VStr (js "egg")]
    (prompt plainBuiltins [VStr (js "egg")] ++ js "  Title: Omelette  ")
  = js "Title: Omelette".
Proof.
  apply (echoed_prompt_is_removed plainBuiltins [VStr (js "egg")]
           (js "  Title: Omelette  ")).
  discriminate.
Defined.

(** ** Trimmed texts *)

Lemma dropWhile_idem {A} (p : A -> bool) (l : list A) :
  dropWhile p (dropWhile p l) = dropWhile p l.
Proof.
  induction l as [|x l IH]; [reflexivity|]. simpl.
  destruct (p x) eqn:Hx; [exact IH|]. simpl. rewrite Hx. reflexivity.
Qed.

Lemma dropWhile_snoc {A} (p : A -> bool) (l : list A) (c : A) :
  p c = false -> dropWhile p (l ++ [c]) = dropWhile p l ++ [c].
Proof.
  intros Hc. induction l as [|x l IH]; simpl.
  - rewrite Hc. reflexivity.
  - destruct (p x); [exact IH | reflexivity].
Qed.

Lemma trimEnd_cons (c : N) (y : jsstring) :
  isWhiteSpace c = false -> trimEnd (c :: y) = c :: trimEnd y.
Proof.
  intros Hc. unfold trimEnd. simpl.
  rewrite (dropWhile_snoc isWhiteSpace (rev y) c Hc), rev_app_distr. reflexivity.
Qed.

Lemma trimStart_head (s : jsstring) :
  trimStart s = [] \/ exists c y, trimStart s = c :: y /\ isWhiteSpace c = false.
Proof.
  unfold trimStart. induction s as [|x s IH]; [left; reflexivity|]. simpl.
  destruct (isWhiteSpace x) eqn:Hx; [exact IH|]. right. eauto.
Qed.

Lemma trimEnd_idem (y : jsstring) : trimEnd (trimEnd y) = trimEnd y.
Proof. unfold trimEnd. rewrite rev_involutive, dropWhile_idem. reflexivity. Qed.

Lemma trim_idem (s : jsstring) : trim (trim s) = trim s.
Proof.
  change (trim (trimEnd (trimStart s)) = trimEnd (trimStart s)).
  destruct (trimStart_head s) as [-> | (c & y & -> & Hc)]; [reflexivity|].
  rewrite (trimEnd_cons c y Hc). unfold trim, trimStart. simpl. rewrite Hc.
  rewrite (trimEnd_cons c _ Hc), trimEnd_idem. reflexivity.
Qed.

Lemma parseBlock_trimmed (block : jsstring) (r : Recipe) :
  In r (parseBlock block) ->
  trim (title r) = title r /\ trim (description r) = description r.
Proof.
  unfold parseBlock.
  destruct (titleRegex block) as [t|]; [destruct (descRegex block) as [d|]|].
  - intros [<-|[]]. simpl. split; apply trim_idem.
  - destruct (10 <? length (trim block))%nat; [|intros []].
    destruct (split [10%N] (trim block)) as [|l0 [|l1 ls]];
      try (intros H; exact (False_ind _ H)).
    intros [<-|[]]. simpl. split; apply trim_idem.
  - destruct (10 <? length (trim block))%nat; [|intros []].
    destruct (split [10%N] (trim block)) as [|l0 [|l1 ls]];
      try (intros H; exact (False_ind _ H)).
    intros [<-|[]]. simpl. split; apply trim_idem.
Qed.

(** X17: Whatever the service does, no recipe the requester returns has white
    space around its title or its description. *)
Theorem getRecipeFromHF_trimmed (B : Builtins) (hf : HfOutcome) (objects : list JsVal)
    (r : Recipe) :
  In r (recipes (getRecipeFromHF B hf objects)) ->
  trim (title r) = title r /\ trim (description r) = description r.
Proof.
  destruct objects as [|o os]; [intros []|].
  destruct hf as [m|text]; simpl.
  - intros [<-|[]]. split; vm_compute; reflexivity.
  - set (g := generatedTextOf B (o :: os) text).
    destruct (Nat.eqb (length (parsedRecipes g)) 0 && (0 <? length g)%nat).
    + intros [<-|[]]. simpl. split; [vm_compute; reflexivity|].
      unfold g, generatedTextOf. apply trim_idem.
    + unfold parsedRecipes. intros Hin. apply in_concat in Hin as (rs & Hrs & Hin).
      apply in_map_iff in Hrs as (block & <- & _).
      exact (parseBlock_trimmed block r Hin).
Qed.

Lemma getRecipeFromHF_trimmed_witness :
  trim (js "Whisk and fry.") = js "Whisk and fry.".
Proof.
  apply (getRecipeFromHF_trimmed plainBuiltins (HfReturns twoBlocks) [VStr (js "egg")]
           {| title := js "Omelette"; description := js "Whisk and fry." |}).
  vm_compute. left. reflexivity.
Defined.

(** ** How many recipes *)

Lemma parseBlock_at_most_one (block : jsstring) : (length (parseBlock block) <= 1)%nat.
Proof.
  unfold parseBlock.
  destruct (titleRegex block); [destruct (descRegex block)|]; simpl; try lia;
    destruct (10 <? length (trim block))%nat; simpl; try lia;
    destruct (split [10%N] (trim block)) as [|l0 [|l1 ls]]; simpl; lia.
Qed.

Lemma concat_parseBlock_length (blocks : list jsstring) :
  (length (concat (map parseBlock blocks)) <= length blocks)%nat.
Proof.
  induction blocks as [|b bs IH]; simpl; [lia|].
  rewrite length_app. pose proof (parseBlock_at_most_one b). lia.
Qed.

(** X18: When the service answers, the requester returns no recipe exactly when
    the generated text is empty, and never more recipes than the text has
    blocks. *)
Theorem getRecipeFromHF_count (B : Builtins) (objects : list JsVal)
    (generated_text : jsstring) :
  objects <> [] ->
  (recipes (getRecipeFromHF B (HfReturns generated_text) objects) = [] <->
   generatedTextOf B objects generated_text = [])
  /\ (length (recipes (getRecipeFromHF B (HfReturns generated_text) objects))
      <= length (split (js "---") (generatedTextOf B objects generated_text)))%nat.
Proof.
  intros Hobj. destruct objects as [|o os]; [congruence|]. simpl.
  set (g := generatedTextOf B (o :: os) generated_text).
  pose proof (concat_parseBlock_length (split (js "---") g)) as Hlen.
  fold (parsedRecipes g) in Hlen.
  assert (Hsplit : (1 <= length (split (js "---") g))%nat).
  { pose proof (splitGo_nonempty (js "---") g [] 0) as Hne. unfold split.
    destruct (splitGo (js "---") g [] 0); [congruence | simpl; lia]. }
  destruct g as [|c g'] eqn:Hg.
  - split; [|exact Hlen]. split; [reflexivity|]. intros _. reflexivity.
  - destruct (parsedRecipes (c :: g')) as [|r rs] eqn:Hp; simpl.
    + split; [split; discriminate | exact Hsplit].
    + split; [split; discriminate | exact Hlen].
Qed.

Lemma getRecipeFromHF_count_witness :
  (length (recipes (getRecipeFromHF plainBuiltins (HfReturns twoBlocks) [VStr (js "egg")]))
   <= length (split (js "---")
                (generatedTextOf plainBuiltins [VStr (js "egg")] twoBlocks)))%nat.
Proof.
  apply (getRecipeFromHF_count plainBuiltins [VStr (js "egg")] twoBlocks). discriminate.
Defined.

(** ** The two-line fallback of the parser *)

Lemma splitGo_lineFeed (s acc : jsstring) :
  splitGo [10%N] s acc 0
  = (rev acc ++ takeWhile notLineFeed s)
    :: match dropWhile notLineFeed s with
       | [] => []
       | _ :: rest => splitGo [10%N] rest [] 0
       end.
Proof.
  revert acc. induction s as [|x s IH]; intros acc.
  - simpl. rewrite app_nil_r. reflexivity.
  - change (splitGo [10%N] (x :: s) acc 0)
      with (if (10 =? x)%N && true then rev acc :: splitGo [10%N] s [] 0
            else splitGo [10%N] s (x :: acc) 0).
    change (takeWhile notLineFeed (x :: s))
      with (if negb (10 =? x)%N then x :: takeWhile notLineFeed s else []).
    change (dropWhile notLineFeed (x :: s))
      with (if negb (10 =? x)%N then dropWhile notLineFeed s else x :: s).
    destruct (10 =? x)%N; cbn [negb andb].
    + rewrite app_nil_r. reflexivity.
    + rewrite IH. cbn [rev]. rewrite <- app_assoc. reflexivity.
Qed.

Lemma dropWhile_app_all {A} (p : A -> bool) (l t : list A) :
  Forall (fun x => p x = true) l -> dropWhile p (l ++ t) = dropWhile p t.
Proof.
  intros Hall. induction Hall as [|x l Hx _ IH]; [reflexivity|].
  simpl. rewrite Hx. exact IH.
Qed.

Lemma takeWhile_app_all {A} (p : A -> bool) (l t : list A) :
  Forall (fun x => p x = true) l -> takeWhile p (l ++ t) = l ++ takeWhile p t.
Proof.
  intros Hall. induction Hall as [|x l Hx _ IH]; [reflexivity|].
  simpl. rewrite Hx, IH. reflexivity.
Qed.

(** X19: A block that lacks one of the two labels gives a recipe only when,
    trimmed, it has more than 10 code units and at least two lines; the
    title is then its first line without the enumeration marker and the
    description its second line, both trimmed, and further lines are
    dropped. *)
Theorem parseBlock_two_line_fallback (block : jsstring) :
  titleRegex block = None \/ descRegex block = None ->
  parseBlock block
  = if (10 <? length (trim block))%nat then
      match dropWhile notLineFeed (trim block) with
      | [] => []
      | _ :: rest =>
          [ {| title := trim (stripEnumeration (takeWhile notLineFeed (trim block)));
               description := trim (takeWhile notLineFeed rest) |} ]
      end
    else [].
Proof.
  intros Hlab.
  assert (Hp : parseBlock block
               = if (10 <? length (trim block))%nat then
                   match split [10%N] (trim block) with
                   | l0 :: l1 :: _ =>
                       [ {| title := trim (stripEnumeration l0); description := trim l1 |} ]
                   | _ => []
                   end
                 else []).
  { unfold parseBlock. destruct Hlab as [-> | Hd]; [reflexivity|].
    rewrite Hd. destruct (titleRegex block); reflexivity. }
  rewrite Hp. destruct (10 <? length (trim block))%nat; [|reflexivity].
  unfold split. rewrite splitGo_lineFeed. simpl.
  destruct (dropWhile notLineFeed (trim block)) as [|c rest]; [reflexivity|].
  rewrite splitGo_lineFeed. reflexivity.
Qed.

Lemma parseBlock_two_line_fallback_witness :
  parseBlock (js "1. Soup" ++ [10%N] ++ js " Boil water and wait " ++ [10%N] ++ js "Serve.")
  = [ {| title := js "Soup"; description := js "Boil water and wait" |} ].
Proof.
  rewrite (parseBlock_two_line_fallback
             (js "1. Soup" ++ [10%N] ++ js " Boil water and wait " ++ [10%N] ++ js "Serve."));
    [|left]; vm_compute; reflexivity.
Defined.

Lemma digit_not_whitespace (c : N) : isDigit c = true -> isWhiteSpace c = false.
Proof.
  unfold isDigit, isWhiteSpace, isLineTerminator. intros H.
  apply andb_true_iff in H as [H1 H2]. apply N.leb_le in H1, H2.
  repeat match goal with
         | |- context [(c =? ?n)%N] =>
             replace (c =? n)%N with false by (symmetry; apply N.eqb_neq; lia)
         end.
  replace (8192 <=? c)%N with false by (symmetry; apply N.leb_gt; lia).
  reflexivity.
Qed.

(** X20: The enumeration marker the fallback removes is one digit, a dot and
    the white space after them; a number of two digits is left in place,
    and so is a line that does not begin with a digit. *)
Theorem stripEnumeration_marker :
  (forall d ws t,
     isDigit d = true -> Forall (fun c => isWhiteSpace c = true) ws ->
     trimStart t = t ->
     stripEnumeration (d :: 46%N :: ws ++ t) = t)
  /\ (forall d1 d2 rest,
        isDigit d1 = true -> isDigit d2 = true ->
        stripEnumeration (d1 :: d2 :: rest) = d1 :: d2 :: rest)
  /\ (forall c rest, isDigit c = false -> stripEnumeration (c :: rest) = c :: rest).
Proof.
  split; [|split].
  - intros d ws t Hd Hws Ht. simpl. rewrite Hd. simpl.
    rewrite (dropWhile_app_all isWhiteSpace ws t Hws). exact Ht.
  - intros d1 d2 rest Hd1 Hd2. simpl. rewrite Hd1.
    unfold isDigit in Hd2. apply andb_true_iff in Hd2 as [H1 _]. apply N.leb_le in H1.
    replace (d2 =? 46)%N with false by (symmetry; apply N.eqb_neq; lia). reflexivity.
  - intros c rest Hc. destruct rest as [|dot rest]; [reflexivity|].
    simpl. rewrite Hc. reflexivity.
Qed.

Lemma stripEnumeration_marker_witness :
  stripEnumeration (js "2.  Stew") = js "Stew"
  /\ stripEnumeration (js "12. Stew") = js "12. Stew".
Proof.
  split.
  - apply (proj1 stripEnumeration_marker 50%N (js "  ") (js "Stew")); try reflexivity.
    repeat constructor.
  - apply (proj1 (proj2 stripEnumeration_marker) 49%N 50%N (js ". Stew")); reflexivity.
Defined.

(** ** The days parameter *)

(** X21: parseInt as the route uses it: leading white space and whatever
    follows the digits are ignored, a minus sign negates; and the route
    depends on the parameter only through the parsed number, so that a
    missing or empty parameter behaves like 3. *)
Theorem days_parameter_tolerant (ws ds rest : jsstring) :
  Forall (fun c => isWhiteSpace c = true) ws ->
  Forall (fun c => isDigit c = true) ds ->
  ds <> [] ->
  takeWhile isDigit rest = [] ->
  parseInt10 (ws ++ ds ++ rest) = Some (digitsValue ds)
  /\ parseInt10 (ws ++ 45%N :: ds ++ rest) = Some (- digitsValue ds)
  /\ days_to_expire (Some (ws ++ ds ++ rest)) = Some (digitsValue ds)
  /\ days_to_expire None = Some 3
  /\ days_to_expire (Some []) = Some 3
  /\ (forall B env w days1 days2,
        days_to_expire days1 = days_to_expire days2 ->
        handleRecipe B env days1 w = handleRecipe B env days2 w).
Proof.
  intros Hws Hds Hne Hrest.
  assert (Htake : takeWhile isDigit (ds ++ rest) = ds).
  { rewrite (takeWhile_app_all isDigit ds rest Hds), Hrest, app_nil_r. reflexivity. }
  destruct ds as [|d ds']; [congruence|].
  pose proof (Forall_inv Hds) as Hd. simpl in Hd.
  pose proof (digit_not_whitespace d Hd) as Hdw.
  assert (Hsign : d <> 45%N /\ d <> 43%N).
  { unfold isDigit in Hd. apply andb_true_iff in Hd as [H1 _]. apply N.leb_le in H1. lia. }
  assert (H1 : parseInt10 (ws ++ (d :: ds') ++ rest) = Some (digitsValue (d :: ds'))).
  { unfold parseInt10. rewrite (dropWhile_app_all isWhiteSpace ws _ Hws).
    change ((d :: ds') ++ rest) with (d :: (ds' ++ rest)) in *.
    simpl dropWhile. rewrite Hdw.
    assert (Hs : (match d :: ds' ++ rest with
                  | 45%N :: r => (-1, r)
                  | 43%N :: r => (1, r)
                  | _ => (1, d :: ds' ++ rest)
                  end) = (1, d :: ds' ++ rest)).
    { destruct Hsign as [Hm Hp]. destruct d as [|p]; [reflexivity|].
      repeat (destruct p as [p|p|]; try reflexivity; try congruence). }
    rewrite Hs. cbn [fst snd]. rewrite Htake.
    f_equal. generalize (digitsValue (d :: ds')). intros z. lia. }
  split; [exact H1|]. split; [|split; [|split; [|split]]].
  - unfold parseInt10. rewrite (dropWhile_app_all isWhiteSpace ws _ Hws).
    change (dropWhile isWhiteSpace (45%N :: (d :: ds') ++ rest))
      with (45%N :: (d :: ds') ++ rest).
    cbn [fst snd]. rewrite Htake. f_equal; lia.
  - unfold days_to_expire, truthy. rewrite H1.
    replace (length (ws ++ (d :: ds') ++ rest) =? 0)%nat with false; [reflexivity|].
    symmetry. apply Nat.eqb_neq. rewrite !length_app. simpl. lia.
  - reflexivity.
  - reflexivity.
  - intros B env w days1 days2 Heq. unfold handleRecipe, expiry_limit. rewrite Heq.
    reflexivity.
Qed.

Lemma days_parameter_tolerant_witness :
  parseInt10 (js "  7 days") = Some 7 /\ parseInt10 (js "  -7 days") = Some (-7).
Proof.
  assert (Hws : Forall (fun c => isWhiteSpace c = true) (js "  "))
    by (repeat constructor).
  assert (Hds : Forall (fun c => isDigit c = true) (js "7")) by (repeat constructor).
  destruct (days_parameter_tolerant (js "  ") (js "7") (js " days") Hws Hds)
    as (H1 & H2 & _); [discriminate | reflexivity |].
  split; [exact H1 | exact H2].
Defined.

(** ** The replacement is not atomic *)



